(** * Metro proximity API: a shallow embedding of [app.py]

    The development follows the source file top to bottom:
    - [PyStr]: the Python string methods the source calls
      ([strip], [lower], [upper], [isupper], [split], [replace], [in]);
    - the exclusion set and the jurisdiction extraction of
      [get_state_from_coords] / [is_excluded_state];
    - [load_metro_data] / [ensure_metro_data_loaded] over an explicit
      process state (the global [metro_data] and the standard output);
    - [check_proximity] over an abstract geometry engine.

    Strings are modelled as [string], one [ascii] per character.  The
    string methods are those of Python on ASCII strings ([PyStr.is_ascii]);
    a character above 127 is treated as uncased, not white space and not a
    digit.  Where a statement depends on a string being turned down
    (no uppercase letter, not the text of a number), it is stated for
    ASCII strings. *)

From Stdlib Require Import Ascii String DecimalString QArith Qround.
From stdpp Require Import gmap strings list.

(** ** Python string methods *)

Module PyStr.

Definition code (c : ascii) : nat := nat_of_ascii c.

(** [s.isascii()]: every character is below 128. *)
Fixpoint is_ascii (s : string) : bool :=
  match s with
  | EmptyString => true
  | String c s' => (code c <? 128) && is_ascii s'
  end.

(** [str.isspace] on one ASCII character: TAB..CR, FS..US and space. *)
Definition is_space (c : ascii) : bool :=
  let n := code c in
  ((9 <=? n) && (n <=? 13)) || ((28 <=? n) && (n <=? 32)).

Definition is_upper_char (c : ascii) : bool :=
  let n := code c in (65 <=? n) && (n <=? 90).

Definition is_lower_char (c : ascii) : bool :=
  let n := code c in (97 <=? n) && (n <=? 122).

Definition lower_char (c : ascii) : ascii :=
  if is_upper_char c then ascii_of_nat (code c + 32) else c.

Definition upper_char (c : ascii) : ascii :=
  if is_lower_char c then ascii_of_nat (code c - 32) else c.

Fixpoint smap (f : ascii -> ascii) (s : string) : string :=
  match s with
  | EmptyString => EmptyString
  | String c s' => String (f c) (smap f s')
  end.

Fixpoint sexists (f : ascii -> bool) (s : string) : bool :=
  match s with
  | EmptyString => false
  | String c s' => f c || sexists f s'
  end.

(** [s.lower()] and [s.upper()]. *)
Definition lower (s : string) : string := smap lower_char s.
Definition upper (s : string) : string := smap upper_char s.

(** [s.isupper()] on an ASCII string: at least one cased character, and
    no lowercase one.  Characters that are not letters do not count either
    way, so ["A1".isupper()] is [True]. *)
Definition isupper (s : string) : bool :=
  sexists is_upper_char s && negb (sexists is_lower_char s).

(** [s.lstrip()], [s.rstrip()], [s.strip()] without argument. *)
Fixpoint lstrip (s : string) : string :=
  match s with
  | EmptyString => EmptyString
  | String c s' => if is_space c then lstrip s' else s
  end.

Fixpoint rstrip (s : string) : string :=
  match s with
  | EmptyString => EmptyString
  | String c s' =>
      match rstrip s' with
      | EmptyString => if is_space c then EmptyString else String c EmptyString
      | r => String c r
      end
  end.

Definition strip (s : string) : string := rstrip (lstrip s).

(** [s.replace(a, b)] for single characters [a] and [b]. *)
Definition replace_char (a b : ascii) (s : string) : string :=
  smap (fun c => if Ascii.eqb c a then b else c) s.

(** [s.split(sep)] for a single character [sep]: the fields between the
    separators, empty fields included; never the empty list. *)
Fixpoint split (sep : ascii) (s : string) : list string :=
  match s with
  | EmptyString => [EmptyString]
  | String c s' =>
      if Ascii.eqb c sep then EmptyString :: split sep s'
      else match split sep s' with
           | [] => [String c EmptyString]
           | f :: fs => String c f :: fs
           end
  end.

(** [sub in s]: [sub] occurs in [s] as a contiguous substring. *)
Fixpoint contains (sub s : string) : bool :=
  String.prefix sub s ||
  match s with
  | EmptyString => false
  | String _ s' => contains sub s'
  end.

(** [s.replace(old, new)] for a non-empty [old]: every non-overlapping
    occurrence, left to right.  [skip] counts the characters of a matched
    occurrence that are still to be dropped. *)
Fixpoint replace_from (old new : string) (skip : nat) (s : string) : string :=
  match s with
  | EmptyString => EmptyString
  | String c s' =>
      match skip with
      | S k => replace_from old new k s'
      | O =>
          if String.prefix old s
          then String.append new (replace_from old new (String.length old - 1) s')
          else String c (replace_from old new 0 s')
      end
  end.

Definition replace (old new s : string) : string := replace_from old new 0 s.

End PyStr.

Local Open Scope string_scope.

(** ** The exclusion set ([EXCLUDED_STATES], lines 15-18)

    The source holds a Python [set].  Membership is modelled on the list
    of its literal members; iteration order over a [set] of strings is not
    fixed by the language, so it is a parameter of the runtime. *)

Definition EXCLUDED_STATES : list string :=
  ["HI"; "AK"; "FL"; "NY"; "NJ"; "ND"; "SD";
   "Hawaii"; "Alaska"; "Florida"; "New York"; "New Jersey";
   "North Dakota"; "South Dakota"].

Definition in_excluded (s : string) : bool :=
  bool_decide (s ∈ EXCLUDED_STATES).

(** ** Python floats

    A float is a finite number or one of the three special values.  Finite
    arithmetic is exact over [Q]: rounding to binary64 after each operation
    is not modelled (overflow is, where a string is converted). *)

Module PyFloat.

Inductive t : Type :=
| Fin (q : Q)
| PInf
| NInf
| NaN.

Definition is_nan (x : t) : bool :=
  match x with NaN => true | _ => false end.

Definition is_finite (x : t) : bool :=
  match x with Fin _ => true | _ => false end.

(** [x <= y] and [x < y]; every comparison with [nan] is [False]. *)
Definition le (x y : t) : bool :=
  match x, y with
  | NaN, _ | _, NaN => false
  | NInf, _ => true
  | _, PInf => true
  | Fin a, Fin b => Qle_bool a b
  | Fin _, NInf => false
  | PInf, _ => false
  end.

Definition lt (x y : t) : bool :=
  match x, y with
  | NaN, _ | _, NaN => false
  | _, _ => negb (le y x)
  end.

(** The conversion factor of the source: 1 mile = 1609.34 meters. *)
Definition METERS_PER_MILE : Q := (160934 # 100)%Q.

(** [x * 1609.34] and [x / 1609.34]: the factor is finite and positive,
    so the special values are kept. *)
Definition miles_to_meters (x : t) : t :=
  match x with
  | Fin q => Fin (Qred (q * METERS_PER_MILE)%Q)
  | _ => x
  end.

Definition meters_to_miles (x : t) : t :=
  match x with
  | Fin q => Fin (Qred (q / METERS_PER_MILE)%Q)
  | _ => x
  end.

(** Rounding to the nearest integer, ties to the even one. *)
Definition round_half_even (q : Q) : Z :=
  let f := Qfloor q in
  match Qcompare (q - inject_Z f)%Q (1 # 2)%Q with
  | Lt => f
  | Gt => (f + 1)%Z
  | Eq => if Z.even f then f else (f + 1)%Z
  end.

(** [round(x, 2)]: two decimals; the special values round to themselves. *)
Definition round2 (x : t) : t :=
  match x with
  | Fin q => Fin (Qred (inject_Z (round_half_even (q * 100)%Q) / 100)%Q)
  | _ => x
  end.

(** *** [float(s)] on a string

    After stripping white space: an optional sign, then [inf], [infinity]
    or [nan] in any letter case, or a decimal number with an optional
    fraction and exponent; single underscores may separate digits. *)

(** The white space [float] strips from an ASCII string: TAB..CR and
    space (the C [isspace]), not FS..US as [str.strip] does. *)
Definition is_c_space (c : ascii) : bool :=
  let n := nat_of_ascii c in
  (((9 <=? n) && (n <=? 13)) || (n =? 32))%nat.

Fixpoint lstrip_c (s : string) : string :=
  match s with
  | EmptyString => EmptyString
  | String c s' => if is_c_space c then lstrip_c s' else s
  end.

Fixpoint rstrip_c (s : string) : string :=
  match s with
  | EmptyString => EmptyString
  | String c s' =>
      match rstrip_c s' with
      | EmptyString => if is_c_space c then EmptyString else String c EmptyString
      | r => String c r
      end
  end.

Definition strip_c (s : string) : string := rstrip_c (lstrip_c s).

Definition digit_of (c : ascii) : option Z :=
  let n := nat_of_ascii c in
  if ((48 <=? n) && (n <=? 57))%nat then Some (Z.of_nat (n - 48)) else None.

(** The digits after a first one: [(["_"] digit)*], and the rest. *)
Fixpoint more_digits (acc : list Z) (s : string) : list Z * string :=
  match s with
  | EmptyString => (acc, s)
  | String c s' =>
      match digit_of c with
      | Some d => more_digits (acc ++ [d]) s'
      | None =>
          if Ascii.eqb c "_"
          then match s' with
               | EmptyString => (acc, s)
               | String c2 s'' =>
                   match digit_of c2 with
                   | Some d => more_digits (acc ++ [d]) s''
                   | None => (acc, s)
                   end
               end
          else (acc, s)
      end
  end.

(** An optional [digitpart]: no digits when [s] does not start with one. *)
Definition digitpart (s : string) : list Z * string :=
  match s with
  | EmptyString => ([], s)
  | String c s' =>
      match digit_of c with
      | Some d => more_digits [d] s'
      | None => ([], s)
      end
  end.

Definition number_of (ds : list Z) : Z :=
  fold_left (fun n d => (10 * n + d)%Z) ds 0%Z.

Definition pow10 (e : Z) : Q :=
  if (0 <=? e)%Z then inject_Z (10 ^ e) else (/ inject_Z (10 ^ (- e)))%Q.

Definition sign_of (s : string) : bool * string :=
  match s with
  | String "+" s' => (false, s')
  | String "-" s' => (true, s')
  | _ => (false, s)
  end.

Definition is_e (c : ascii) : bool := Ascii.eqb c "e" || Ascii.eqb c "E".

(** The unsigned decimal number, as an exact rational. *)
Definition parse_number (s : string) : option Q :=
  let '(ip, r1) := digitpart s in
  let '(fp, r2) :=
    match r1 with
    | String "." r => digitpart r
    | _ => ([], r1)
    end in
  match (ip ++ fp)%list with
  | [] => None
  | ds =>
      let frac := Z.of_nat (length fp) in
      match r2 with
      | EmptyString => Some (inject_Z (number_of ds) * pow10 (- frac))%Q
      | String c r3 =>
          if is_e c
          then let '(neg, r4) := sign_of r3 in
               match digitpart r4 with
               | (d :: ed, EmptyString) =>
                   let e := number_of (d :: ed) in
                   let e := if neg then (- e)%Z else e in
                   Some (inject_Z (number_of ds) * pow10 (e - frac))%Q
               | _ => None
               end
          else None
      end
  end.

(** Magnitudes from [2^1024 - 2^970] on round to infinity in binary64,
    and magnitudes up to [2^-1075] round to zero. *)
Definition OVERFLOW : Q := inject_Z (2 ^ 1024 - 2 ^ 970).
Definition UNDERFLOW : Q := (/ inject_Z (2 ^ 1075))%Q.

Definition of_magnitude (neg : bool) (q : Q) : t :=
  if Qle_bool OVERFLOW q then (if neg then NInf else PInf)
  else if Qle_bool q UNDERFLOW then Fin 0
  else Fin (Qred (if neg then (- q)%Q else q)).

(** [float(s)] on an ASCII string; [None] stands for the [ValueError]
    Python raises. *)
Definition of_string (s : string) : option t :=
  let '(neg, body) := sign_of (strip_c s) in
  let low := PyStr.lower body in
  if String.eqb low "inf" || String.eqb low "infinity"
  then Some (if neg then NInf else PInf)
  else if String.eqb low "nan" then Some NaN
  else of_magnitude neg <$> parse_number body.

End PyFloat.

(** ** Exceptions

    Only the class matters to the handlers of [check_proximity]:
    [ValueError] (and its subclasses) against everything else.  [str(e)] is
    the message carried. *)

Inductive exn : Type :=
| ValueError (msg : string)
| TypeError (msg : string)
| OtherError (msg : string).

Definition exn_str (e : exn) : string :=
  match e with
  | ValueError m | TypeError m | OtherError m => m
  end.

(** A computation that returns a value or raises. *)
Inductive result (A : Type) : Type :=
| Ok (a : A)
| Raise (e : exn).

Arguments Ok {A} a.
Arguments Raise {A} e.

#[global] Instance result_ret : MRet result := fun A a => Ok a.
#[global] Instance result_bind : MBind result := fun A B f m =>
  match m with
  | Ok a => f a
  | Raise e => Raise e
  end.
#[global] Instance result_fmap : FMap result := fun A B f m =>
  match m with
  | Ok a => Ok (f a)
  | Raise e => Raise e
  end.

(** ** JSON values, as [jsonify] receives them

    A [dict] is kept as the list of its items in insertion order. *)

#[warnings="-register-all"]
Inductive json : Type :=
| JNull
| JBool (b : bool)
| JInt (z : Z)
| JFloat (x : PyFloat.t)
| JStr (s : string)
| JList (l : list json)
| JDict (items : list (string * json)).

(** [d.get(key)] on a JSON object. *)
Definition jget (key : string) (j : json) : option json :=
  match j with
  | JDict items => snd <$> find (fun kv => String.eqb (fst kv) key) items
  | _ => None
  end.

(** A Flask response: the JSON body and the HTTP status. *)
Record response : Type := Response { body : json; status : nat }.

(** ** Rows of the boundary frame

    One row: its index label and the fields the source reads; [G] is the
    type of geometries. *)
Record row (G : Type) : Type := Row {
  label : nat;
  NAME : string;
  CBSAFP : string;
  geom : G;
}.

Arguments Row {G} label NAME CBSAFP geom.
Arguments label {G} r.
Arguments NAME {G} r.
Arguments CBSAFP {G} r.
Arguments geom {G} r.

(** ** What the source leaves to its platform *)

(** The Python runtime and pandas. *)
Class PyRuntime : Type := {
  (** the order in which [for state in EXCLUDED_STATES] visits the set *)
  set_iter_order : list string;
  set_iter_order_perm : set_iter_order ≡ₚ EXCLUDED_STATES;
  (** how an f-string formats a float *)
  float_str : PyFloat.t -> string;
  (** what [frame.loc[column.idxmin()]] raises on a non-empty column
      that holds only [nan] (a [KeyError] or a [ValueError], by pandas
      version) *)
  idxmin_all_na : exn;
}.

(** The geometry engine (shapely, pyproj and geopandas).  A point is the
    pair [(x, y)]: [(lon, lat)] in geographic coordinates.  Every
    operation may raise. *)
Class GeoEngine : Type := {
  geometry : Type;
  (** [GeoSeries([Point(x, y)], crs='EPSG:4326').to_crs('EPSG:3857')] *)
  point_to_crs_3857 : PyFloat.t * PyFloat.t -> result (PyFloat.t * PyFloat.t);
  (** [g.contains(p)] *)
  geom_contains : geometry -> PyFloat.t * PyFloat.t -> result bool;
  (** [g.distance(p)] *)
  geom_distance : geometry -> PyFloat.t * PyFloat.t -> result PyFloat.t;
  (** [to_crs('EPSG:3857')] and [to_crs('EPSG:4326')] on one geometry *)
  geom_to_crs_3857 : geometry -> result geometry;
  geom_to_crs_4326 : geometry -> result geometry;
  (** the second component of [nearest_points(p, g)]: the point of [g]
      closest to [p] *)
  nearest_points : PyFloat.t * PyFloat.t -> geometry -> result (PyFloat.t * PyFloat.t);
}.

Section App.

Context `{!PyRuntime} `{!GeoEngine}.

(** ** The data frame *)

(** [metro_working]: a row of the frame with its [distance] entry. *)
Definition measured : Type := (row geometry * PyFloat.t)%type.

(** The row has a distance that is a number; the row's distance is at
    most [t] (the test [distance <= t] of line 542). *)
Definition not_nan (m : measured) : Prop := PyFloat.is_nan m.2 = false.
Definition within (t : PyFloat.t) (m : measured) : Prop := PyFloat.le m.2 t = true.

#[global] Instance not_nan_dec m : Decision (not_nan m).
Proof. unfold not_nan. apply _. Defined.

#[global] Instance within_dec t m : Decision (within t m).
Proof. unfold within. apply _. Defined.

(** [column.idxmin()] followed by the label's use in [.loc]: the label
    of the first occurrence of the minimum, [nan] entries skipped. *)
Definition first_min (best : measured) (rest : list measured) : measured :=
  fold_left (fun b m => if PyFloat.lt (snd m) (snd b) then m else b) rest best.

Definition argmin (frame : list measured) : option measured :=
  match filter not_nan frame with
  | [] => None
  | m :: ms => Some (first_min m ms)
  end.

Definition idxmin (frame : list measured) : result nat :=
  match frame with
  | [] => Raise (ValueError "attempt to get argmin of an empty sequence")
  | _ =>
      match argmin frame with
      | None => Raise idxmin_all_na
      | Some m => Ok (label (fst m))
      end
  end.

(** [frame.loc[lbl]] for a label that occurs once. *)
Definition loc (frame : list measured) (lbl : nat) : result measured :=
  match find (fun m => Nat.eqb (label (fst m)) lbl) frame with
  | Some m => Ok m
  | None => Raise (OtherError "KeyError")
  end.

Definition loc_geom (frame : list (row geometry)) (lbl : nat) : result geometry :=
  match find (fun r => Nat.eqb (label r) lbl) frame with
  | Some r => Ok (geom r)
  | None => Raise (OtherError "KeyError")
  end.

(** ** Jurisdiction classifier (lines 20-56) *)

(** Lines 37-46: the loop over the parts of one metro name.  The result is
    the value returned from inside the loop, [None] when the loop ends. *)
Fixpoint scan_parts (parts : list string) : option string :=
  match parts with
  | [] => None
  | part :: rest =>
      let part := PyStr.strip part in
      if Nat.eqb (String.length part) 2 && PyStr.isupper part
      then Some part
      else match find (fun state => PyStr.contains state part) set_iter_order with
           | Some state => Some state
           | None => scan_parts rest
           end
  end.

Definition state_of_name (metro_name : string) : option string :=
  scan_parts (PyStr.split "," (PyStr.replace_char "-" "," metro_name)).

(** Lines 32-47: the first row that contains the point decides. *)
Fixpoint first_containing (frame : list (row geometry)) (p : PyFloat.t * PyFloat.t)
  : result (option (row geometry)) :=
  match frame with
  | [] => Ok None
  | r :: rest =>
      inside ← geom_contains (geom r) p;
      if inside : bool then Ok (Some r) else first_containing rest p
  end.

(** The body of the [try] of [get_state_from_coords]; [md] is the value
    of the global [metro_data]. *)
Definition state_lookup (md : option (list (row geometry))) (lat lon : PyFloat.t)
  : result (option string) :=
  match md with
  | None => Ok None
  | Some frame =>
      point_proj ← point_to_crs_3857 (lon, lat);
      hit ← first_containing frame point_proj;
      Ok (hit ≫= fun r => state_of_name (NAME r))
  end.

(** [get_state_from_coords]: any exception is printed and swallowed. *)
Definition get_state_from_coords (md : option (list (row geometry)))
    (lat lon : PyFloat.t) : option string :=
  match state_lookup md lat lon with
  | Ok state => state
  | Raise _ => None
  end.

(** [is_excluded_state]; [not state] holds for [None] and for the empty
    string. *)
Definition is_excluded_state (state : option string) : bool :=
  match state with
  | None => false
  | Some s =>
      if String.eqb s EmptyString then false
      else in_excluded s || in_excluded (PyStr.upper s)
  end.

(** ** Boundary store (lines 58-110) *)

(** What the process prints while loading. *)
Inductive stdout_line : Type :=
| LoadingCensus
| LoadedTargets (n : nat)
| FilteredTo (n : nat)
| NoFilterApplied (n : nat)
| ShapefileNotFound.

(** The two files next to the script: the records of the shapefile (name,
    code, geometry) and the lines of [target_metros.txt]; [None] when the
    path does not exist. *)
Record files : Type := Files {
  shapefile : option (list (string * string * geometry));
  target_metros : option (list string);
}.

(** The process state: the global [metro_data] and the standard output. *)
Record process : Type := Process {
  metro_data : option (list (row geometry));
  stdout : list stdout_line;
}.

Definition print (line : stdout_line) (p : process) : process :=
  Process (metro_data p) (stdout p ++ [line]).

Definition set_metro_data (frame : list (row geometry)) (p : process) : process :=
  Process (Some frame) (stdout p).

(** [gpd.read_file]: the records in file order, labelled 0, 1, ... *)
Definition read_file (records : list (string * string * geometry)) : list (row geometry) :=
  imap (fun i rec => Row i rec.1.1 rec.1.2 rec.2) records.

(** Lines 77-83: the set of target names. *)
Definition read_targets (lines : list string) : gset string :=
  list_to_set
    (filter (fun name => name ≠ EmptyString ∧ name ∉ ["Other"; "Rural"])
            (PyStr.strip <$> lines)).

(** Lines 94-96: the main part of one target name. *)
Definition target_main (target : string) : string :=
  let main := PyStr.strip (PyStr.lower (hd EmptyString (PyStr.split "," target))) in
  PyStr.strip (PyStr.replace " msa" EmptyString main).

(** Lines 90-99. *)
Definition matches_target (target_names : gset string) (census_name : string) : bool :=
  let census_name_clean := PyStr.lower census_name in
  existsb (fun target => PyStr.contains (target_main target) census_name_clean)
          (elements target_names).

(** Lines 88-104: the rows kept; all of them when there is no target. *)
Definition filter_targets (target_names : gset string)
    (all_metro_data : list (row geometry)) : list (row geometry) :=
  if bool_decide (target_names ≠ ∅)
  then filter (fun r => matches_target target_names (NAME r) = true) all_metro_data
  else all_metro_data.

(** [frame.to_crs(...)]: every geometry, in row order. *)
Definition frame_to_crs (f : geometry -> result geometry) (frame : list (row geometry))
  : result (list (row geometry)) :=
  mapM (fun r => g ← f (geom r); Ok (Row (label r) (NAME r) (CBSAFP r) g)) frame.

(** [load_metro_data]: the outcome and the process state it leaves.  The
    global is assigned before the reprojection of line 108, so a
    reprojection that raises leaves the unprojected frame behind. *)
Definition load_metro_data (fs : files) (p : process) : result unit * process :=
  match shapefile fs with
  | Some records =>
      let p := print LoadingCensus p in
      let all_metro_data := read_file records in
      let target_names :=
        match target_metros fs with
        | Some lines => read_targets lines
        | None => ∅
        end in
      let p :=
        match target_metros fs with
        | Some _ => print (LoadedTargets (size target_names)) p
        | None => p
        end in
      let frame := filter_targets target_names all_metro_data in
      let p := set_metro_data frame p in
      let p :=
        if bool_decide (target_names ≠ ∅)
        then print (FilteredTo (length frame)) p
        else print (NoFilterApplied (length frame)) p in
      match frame_to_crs geom_to_crs_3857 frame with
      | Ok projected => (Ok (), set_metro_data projected p)
      | Raise e => (Raise e, p)
      end
  | None => (Ok (), print ShapefileNotFound p)
  end.

(** [ensure_metro_data_loaded]. *)
Definition ensure_metro_data_loaded (fs : files) (p : process) : result unit * process :=
  match metro_data p with
  | None => load_metro_data fs p
  | Some _ => (Ok (), p)
  end.

(** The state of a fresh process, and line 598: the load at import. *)
Definition fresh : process := Process None [].

Definition import_module (fs : files) : result unit * process :=
  load_metro_data fs fresh.

(** ** Proximity engine ([check_proximity], lines 478-595) *)

(** [float(request.args.get(key))]: a missing parameter is [float(None)],
    a [TypeError]; a string that is not a number is a [ValueError]. *)
Definition float_of_arg (v : option string) : result PyFloat.t :=
  match v with
  | None =>
      Raise (TypeError
        "float() argument must be a string or a real number, not 'NoneType'")
  | Some s =>
      match PyFloat.of_string s with
      | Some x => Ok x
      | None => Raise (ValueError "could not convert string to float")
      end
  end.

(** [float(request.args.get('max_distance', 50))]. *)
Definition max_distance_arg (v : option string) : result PyFloat.t :=
  match v with
  | None => Ok (PyFloat.Fin 50)
  | Some s => float_of_arg (Some s)
  end.

Definition error_body (msg : string) : json := JDict [("error", JStr msg)].

(** Lines 508-513. *)
Definition excluded_body (state : string) : json :=
  JDict [("excluded", JBool true);
         ("excluded_state", JStr state);
         ("within_range", JBool false);
         ("message", JStr ("We do not lend in " ++ state))].

(** The [nearest_metro] object of both results. *)
Definition nearest_metro_json (r : row geometry) (distance_to_edge : json)
    (edge : PyFloat.t * PyFloat.t) : json :=
  JDict [("name", JStr (NAME r));
         ("cbsa_code", JStr (CBSAFP r));
         ("distance_to_edge_miles", distance_to_edge);
         ("edge_coords", JList [JFloat edge.2; JFloat edge.1])].

(** Lines 546-556. *)
Definition out_of_range_body (nearest_overall : measured)
    (edge : PyFloat.t * PyFloat.t) (max_distance_miles : PyFloat.t) : json :=
  let miles := PyFloat.round2 (PyFloat.meters_to_miles nearest_overall.2) in
  JDict [("within_range", JBool false);
         ("is_inside_metro", JBool false);
         ("nearest_metro", nearest_metro_json nearest_overall.1 (JFloat miles) edge);
         ("message", JStr ("Nearest metro is " ++ float_str miles
                           ++ " miles away (outside " ++ float_str max_distance_miles
                           ++ " mile range)"))].

(** Lines 578-584: one entry of [all_nearby_metros]. *)
Definition metro_info (m : measured) : json :=
  JDict [("name", JStr (NAME m.1));
         ("distance_miles", JFloat (PyFloat.round2 (PyFloat.meters_to_miles m.2)));
         ("cbsa_code", JStr (CBSAFP m.1))].

(** Lines 565-584. *)
Definition in_range_body (nearest : measured) (is_inside : bool)
    (edge : PyFloat.t * PyFloat.t) (nearby_metros : list measured) : json :=
  let distance_miles := PyFloat.meters_to_miles nearest.2 in
  JDict [("within_range", JBool true);
         ("is_inside_metro", JBool is_inside);
         ("nearest_metro",
          nearest_metro_json nearest.1
            (if is_inside then JInt 0 else JFloat (PyFloat.round2 distance_miles))
            edge);
         ("all_nearby_metros", JList (metro_info <$> nearby_metros))].

(** Lines 518-586: the distance computation over the loaded frame. *)
Definition proximity (frame : list (row geometry)) (lat lon max_distance_miles : PyFloat.t)
  : result response :=
  let max_distance_meters := PyFloat.miles_to_meters max_distance_miles in
  point ← point_to_crs_3857 (lon, lat);
  distance ← mapM (fun r => geom_distance (geom r) point) frame;
  let metro_working := zip frame distance in
  nearest_label ← idxmin metro_working;
  nearest_overall ← loc metro_working nearest_label;
  is_inside_nearest ← geom_contains (geom nearest_overall.1) point;
  frame_wgs84 ← frame_to_crs geom_to_crs_4326 frame;
  nearest_geom_wgs84 ← loc_geom frame_wgs84 (label nearest_overall.1);
  closest_point ← nearest_points (lon, lat) nearest_geom_wgs84;
  let nearby_metros := filter (within max_distance_meters) metro_working in
  match nearby_metros with
  | [] =>
      Ok (Response (out_of_range_body nearest_overall closest_point max_distance_miles) 200)
  | _ =>
      label ← idxmin nearby_metros;
      nearest ← loc nearby_metros label;
      is_inside ← geom_contains (geom nearest.1) point;
      Ok (Response (in_range_body nearest is_inside closest_point nearby_metros) 200)
  end.

(** The body of the outer [try]. *)
Definition check_proximity_try (md : option (list (row geometry))) (args : gmap string string)
  : result response :=
  lat ← float_of_arg (args !! "lat");
  lon ← float_of_arg (args !! "lon");
  max_distance_miles ← max_distance_arg (args !! "max_distance");
  match md with
  | None => Ok (Response (error_body "Metro data not loaded") 500)
  | Some frame =>
      let state := get_state_from_coords md lat lon in
      match state with
      | Some s =>
          if negb (String.eqb s EmptyString) && is_excluded_state state
          then Ok (Response (excluded_body s) 200)
          else proximity frame lat lon max_distance_miles
      | None => proximity frame lat lon max_distance_miles
      end
  end.

(** The two handlers of lines 588-595. *)
Definition INVALID_PARAMETERS : response :=
  Response (error_body "Invalid parameters. Provide lat, lon as numbers.") 400.

Definition handle (outcome : result response) : response :=
  match outcome with
  | Ok r => r
  | Raise (ValueError _) => INVALID_PARAMETERS
  | Raise e => Response (error_body (exn_str e)) 500
  end.

(** [check_proximity]; [md] is the value of the global [metro_data]. *)
Definition check_proximity (md : option (list (row geometry))) (args : gmap string string)
  : response :=
  handle (check_proximity_try md args).

(** ** Assumptions on one query, named for the statements below *)

(** The engine raises nothing on [frame] at the query point: the point
    projects to [p], every row has a distance ([ds], in row order) and a
    containment verdict, and every geometry has a geographic form with a
    nearest point. *)
Definition engine_answers (frame : list (row geometry)) (lat lon : PyFloat.t)
    (p : PyFloat.t * PyFloat.t) (ds : list PyFloat.t) : Prop :=
  point_to_crs_3857 (lon, lat) = Ok p ∧
  mapM (fun r => geom_distance (geom r) p) frame = Ok ds ∧
  Forall (fun r => ∃ b, geom_contains (geom r) p = Ok b) frame ∧
  Forall (fun r => ∃ g e, geom_to_crs_4326 (geom r) = Ok g ∧
                          nearest_points (lon, lat) g = Ok e) frame.

(** The three query parameters are supplied as [args] and convert to
    [lat], [lon] and [max_distance_miles]. *)
Definition parsed (args : gmap string string)
    (lat lon max_distance_miles : PyFloat.t) : Prop :=
  float_of_arg (args !! "lat") = Ok lat ∧
  float_of_arg (args !! "lon") = Ok lon ∧
  max_distance_arg (args !! "max_distance") = Ok max_distance_miles.

(** A parameter that is supplied, as an ASCII string, and is not the text
    of a number. *)
Definition unparseable (v : option string) : Prop :=
  ∃ s, v = Some s ∧ PyStr.is_ascii s = true ∧ PyFloat.of_string s = None.

(** The rows within the radius, as [proximity] filters them. *)
Definition nearby_metros (frame : list (row geometry)) (ds : list PyFloat.t)
    (max_distance_miles : PyFloat.t) : list measured :=
  filter (within (PyFloat.miles_to_meters max_distance_miles)) (zip frame ds).

(** The process state after [n] calls of [ensure_metro_data_loaded]. *)
Definition ensure_again (fs : files) (n : nat) (p : process) : process :=
  Nat.iter n (fun q => (ensure_metro_data_loaded fs q).2) p.

End App.


(** ** The specification's wording, for comparison with the code *)

(** The long-form names of the exclusion set. *)
Definition LONG_FORM_NAMES : list string :=
  ["Hawaii"; "Alaska"; "Florida"; "New York"; "New Jersey";
   "North Dakota"; "South Dakota"].

(** Exactly two characters, both uppercase letters. *)
Definition spec_is_abbreviation (token : string) : bool :=
  match token with
  | String a (String b EmptyString) => PyStr.is_upper_char a && PyStr.is_upper_char b
  | _ => false
  end.

(** [extractJurisdiction] as the specification words it: the tokens left
    to right; a two-letter uppercase token is returned, otherwise a
    long-form name the token contains. *)
Fixpoint spec_scan_tokens (tokens : list string) : option string :=
  match tokens with
  | [] => None
  | token :: rest =>
      let token := PyStr.strip token in
      if spec_is_abbreviation token then Some token
      else match find (fun name => PyStr.contains name token) LONG_FORM_NAMES with
           | Some name => Some name
           | None => spec_scan_tokens rest
           end
  end.

Definition spec_extractJurisdiction (regionName : string) : option string :=
  spec_scan_tokens (PyStr.split "," (PyStr.replace_char "-" "," regionName)).

(** The allow-list rule as the specification words it: the record's name,
    normalised like an allow-list entry, is a substring of (or equal to)
    some normalised entry. *)
Definition spec_retained (allow_list : gset string) (name : string) : bool :=
  existsb (fun entry => PyStr.contains (target_main name) (target_main entry))
          (elements allow_list).

(** ** A small planar engine for worked examples

    Geometries are axis-parallel rectangles given by two corners.  The
    projection multiplies degrees by 100000 (meters per degree, roughly,
    near the equator).  A rectangle contains the points of its interior,
    and the distance to it is taken in the maximum norm, which is the
    Euclidean distance whenever the point lies beside, above or below the
    rectangle.  An [Invalid] shape has a distance, but its predicates
    raise, as a self-intersecting polygon does. *)

Module Toy.

Inductive shape : Type :=
| Rect (x0 y0 x1 y1 : Q)
| Invalid (x0 y0 x1 y1 : Q).

Definition Qlt_bool (a b : Q) : bool := negb (Qle_bool b a).

Definition gap (lo hi v : Q) : Q :=
  if Qlt_bool v lo then (lo - v)%Q
  else if Qlt_bool hi v then (v - hi)%Q
  else 0%Q.

Definition clamp (lo hi v : Q) : Q :=
  if Qlt_bool v lo then lo else if Qlt_bool hi v then hi else v.

Definition Qmax (a b : Q) : Q := if Qle_bool a b then b else a.

Definition contains (g : shape) (p : PyFloat.t * PyFloat.t) : result bool :=
  match g, p with
  | Rect x0 y0 x1 y1, (PyFloat.Fin x, PyFloat.Fin y) =>
      Ok (Qlt_bool x0 x && Qlt_bool x x1 && Qlt_bool y0 y && Qlt_bool y y1)
  | Rect _ _ _ _, _ => Ok false
  | Invalid _ _ _ _, _ => Raise (OtherError "TopologyException")
  end.

Definition distance (g : shape) (p : PyFloat.t * PyFloat.t) : result PyFloat.t :=
  match g, p with
  | Rect x0 y0 x1 y1, (PyFloat.Fin x, PyFloat.Fin y)
  | Invalid x0 y0 x1 y1, (PyFloat.Fin x, PyFloat.Fin y) =>
      Ok (PyFloat.Fin (Qred (Qmax (gap x0 x1 x) (gap y0 y1 y))))
  | _, _ => Ok PyFloat.NaN
  end.

Definition nearest (p : PyFloat.t * PyFloat.t) (g : shape)
  : result (PyFloat.t * PyFloat.t) :=
  match g, p with
  | Rect x0 y0 x1 y1, (PyFloat.Fin x, PyFloat.Fin y)
  | Invalid x0 y0 x1 y1, (PyFloat.Fin x, PyFloat.Fin y) =>
      Ok (PyFloat.Fin (clamp x0 x1 x), PyFloat.Fin (clamp y0 y1 y))
  | _, _ => Ok (PyFloat.NaN, PyFloat.NaN)
  end.

Definition SCALE : Q := 100000.

Definition scale_float (k : Q) (x : PyFloat.t) : PyFloat.t :=
  match x with
  | PyFloat.Fin q => PyFloat.Fin (Qred (q * k)%Q)
  | _ => x
  end.

Definition scale_shape (k : Q) (g : shape) : shape :=
  let f q := Qred (q * k)%Q in
  match g with
  | Rect x0 y0 x1 y1 => Rect (f x0) (f y0) (f x1) (f y1)
  | Invalid x0 y0 x1 y1 => Invalid (f x0) (f y0) (f x1) (f y1)
  end.

Definition engine : GeoEngine := {|
  geometry := shape;
  point_to_crs_3857 := fun p => Ok (scale_float SCALE p.1, scale_float SCALE p.2);
  geom_contains := contains;
  geom_distance := distance;
  geom_to_crs_3857 := fun g => Ok (scale_shape SCALE g);
  geom_to_crs_4326 := fun g => Ok (scale_shape (/ SCALE) g);
  nearest_points := nearest;
|}.

Definition show_nat (n : nat) : string :=
  NilZero.string_of_uint (Nat.to_uint n).

(** A float with at most two decimals, printed as Python prints it. *)
Definition show_float (x : PyFloat.t) : string :=
  match x with
  | PyFloat.Fin q =>
      let h := Z.abs (Qfloor (q * 100)%Q) in
      let frac := Z.to_nat (h mod 100) in
      (if Qlt_bool q 0 then "-" else EmptyString)
      ++ show_nat (Z.to_nat (h / 100)) ++ "."
      ++ show_nat (frac / 10)
      ++ (if Nat.eqb (frac mod 10) 0 then EmptyString else show_nat (frac mod 10))
  | PyFloat.PInf => "inf"
  | PyFloat.NInf => "-inf"
  | PyFloat.NaN => "nan"
  end.

(** A runtime that visits the exclusion set in the order it is written. *)
Definition runtime : PyRuntime := {|
  set_iter_order := EXCLUDED_STATES;
  set_iter_order_perm := reflexivity EXCLUDED_STATES;
  float_str := show_float;
  idxmin_all_na := OtherError "nan";
|}.

(** Three sample regions as loaded: squares of one degree (100 km) along
    the equator, in projected meters. *)
Definition miami : row shape :=
  Row 0 "Miami-Fort Lauderdale-Pompano Beach, FL" "33100"
      (Rect 0 0 100000 100000).

Definition phoenix : row shape :=
  Row 1 "Phoenix-Mesa-Chandler, AZ" "38060"
      (Rect 500000 0 600000 100000).

Definition portland : row shape :=
  Row 2 "Portland-Vancouver-Hillsboro, OR-WA" "38900"
      (Rect 900000 0 1000000 100000).

Definition store : list (row shape) := [miami; phoenix; portland].

(** A region whose western edge runs through the middle of [phoenix],
    loaded before it. *)
Definition tucson : row shape :=
  Row 0 "Tucson, AZ" "46060" (Rect 550000 0 650000 100000).

Definition overlapping : list (row shape) := [tucson; phoenix].

(** A region with an invalid polygon, loaded before [phoenix]. *)
Definition broken : row shape :=
  Row 0 "Broken Bow, NE" "13100" (Invalid 0 0 100000 100000).

Definition with_invalid : list (row shape) := [broken; phoenix].

(** The files of a deployment without the shapefile, and of one with two
    records in geographic coordinates and no target list. *)
Definition no_shapefile : @files engine := @Files engine None None.

Definition two_records : @files engine :=
  @Files engine
    (Some [("Miami-Fort Lauderdale-Pompano Beach, FL", "33100", Rect 0 0 1 1);
           ("Phoenix-Mesa-Chandler, AZ", "38060", Rect 5 0 6 1)])
    None.

Definition query (lat lon : string) (max_distance : option string)
  : gmap string string :=
  let args : gmap string string := <["lat" := lat]> (<["lon" := lon]> ∅) in
  match max_distance with
  | Some d => <["max_distance" := d]> args
  | None => args
  end.

End Toy.

(** ** The other routes ([home], lines 112-143; [metros_geojson],
    lines 145-171)

    [map_view] returns a fixed page and reads no state; it is not modelled. *)

(** The string has an uppercase letter. *)
Definition has_upper (s : string) : bool := PyStr.sexists PyStr.is_upper_char s.

(** The centroid of a geometry ([g.centroid]), which [metros_geojson]
    needs on top of the engine. *)
Class CentroidEngine (E : GeoEngine) : Type := {
  geom_centroid : @geometry E -> result (PyFloat.t * PyFloat.t);
}.

Section Routes.

Context {E : GeoEngine} {C : CentroidEngine E}.

(** The number [home] prints after "Metros loaded:"
    ([len(metro_data) if metro_data is not None else 0]); the rest of the
    page is fixed text. *)
Definition home_metros_loaded (md : option (list (row geometry))) : nat :=
  match md with
  | Some frame => length frame
  | None => 0
  end.

(** Lines 156-166: one feature. *)
Definition feature (r : row geometry) (centroid : PyFloat.t * PyFloat.t) : json :=
  JDict [("type", JStr "Feature");
         ("geometry",
          JDict [("type", JStr "Point");
                 ("coordinates", JList [JFloat centroid.1; JFloat centroid.2])]);
         ("properties", JDict [("name", JStr (NAME r))])].

(** Lines 153-166: the loop over the rows of the reprojected frame. *)
Definition features_of (metro_display : list (row geometry)) : result (list json) :=
  mapM (fun r => centroid ← geom_centroid (geom r); Ok (feature r centroid))
       metro_display.

(** [metros_geojson]: the outcome and the process state it leaves.  An
    exception is not handled by the route. *)
Definition metros_geojson (fs : files) (p : process) : result response * process :=
  match ensure_metro_data_loaded fs p with
  | (Raise e, p) => (Raise e, p)
  | (Ok _, p) =>
      match metro_data p with
      | None => (Ok (Response (error_body "Metro data not loaded") 500), p)
      | Some frame =>
          (metro_display ← frame_to_crs geom_to_crs_4326 frame;
           features ← features_of metro_display;
           Ok (Response (JDict [("type", JStr "FeatureCollection");
                                ("features", JList features)]) 200),
           p)
      end
  end.

(** The targets [load_metro_data] reads from the files (lines 77-83). *)
Definition targets_of (fs : files) : gset string :=
  match target_metros fs with
  | Some lines => read_targets lines
  | None => ∅
  end.

(** The name and the code of a row. *)
Definition name_and_code (r : row geometry) : string * string := (NAME r, CBSAFP r).

(** The process state after a series of [/metros.geojson] requests, one
    for each state of the files in [fss]. *)
Definition after_geojson_requests (fss : list files) (p : process) : process :=
  fold_left (fun q fs => (metros_geojson fs q).2) fss p.

End Routes.

(** ** More of the planar engine, for worked examples *)

Module ToyMore.

Import Toy.

(** An engine whose distance raises on an invalid polygon, too. *)
Definition strict_distance (g : shape) (p : PyFloat.t * PyFloat.t) : result PyFloat.t :=
  match g with
  | Invalid _ _ _ _ => Raise (OtherError "TopologyException")
  | Rect _ _ _ _ => distance g p
  end.

Definition strict_engine : GeoEngine := {|
  geometry := shape;
  point_to_crs_3857 := @point_to_crs_3857 engine;
  geom_contains := contains;
  geom_distance := strict_distance;
  geom_to_crs_3857 := @geom_to_crs_3857 engine;
  geom_to_crs_4326 := @geom_to_crs_4326 engine;
  nearest_points := nearest;
|}.

(** An engine for a shapefile without coordinate reference system:
    reprojecting its geometries raises. *)
Definition naive_engine : GeoEngine := {|
  geometry := shape;
  point_to_crs_3857 := @point_to_crs_3857 engine;
  geom_contains := contains;
  geom_distance := distance;
  geom_to_crs_3857 := fun _ => Raise (ValueError "Cannot transform naive geometries");
  geom_to_crs_4326 := fun _ => Raise (ValueError "Cannot transform naive geometries");
  nearest_points := nearest;
|}.

Definition naive_records : @files naive_engine :=
  @Files naive_engine
    (Some [("Miami-Fort Lauderdale-Pompano Beach, FL", "33100", Rect 0 0 1 1);
           ("Phoenix-Mesa-Chandler, AZ", "38060", Rect 5 0 6 1)])
    None.

(** The centroid of a rectangle is its centre. *)
Definition centre (g : shape) : result (PyFloat.t * PyFloat.t) :=
  match g with
  | Rect x0 y0 x1 y1 | Invalid x0 y0 x1 y1 =>
      Ok (PyFloat.Fin (Qred ((x0 + x1) / 2)%Q), PyFloat.Fin (Qred ((y0 + y1) / 2)%Q))
  end.

Definition centroids : CentroidEngine engine :=
  @Build_CentroidEngine engine centre.

(** A Florida region that overlaps [phoenix] and is loaded after it. *)
Definition key_west : row shape :=
  Row 2 "Key West, FL" "28580" (Rect 540000 0 640000 100000).

Definition phoenix_first : list (row shape) := [phoenix; key_west].

(** The files of a deployment whose target list has only the two
    sentinel lines and a blank one. *)
Definition sentinel_targets : @files engine :=
  @Files engine
    (Some [("Miami-Fort Lauderdale-Pompano Beach, FL", "33100", Rect 0 0 1 1);
           ("Phoenix-Mesa-Chandler, AZ", "38060", Rect 5 0 6 1)])
    (Some ["Other"; " Rural "; "  "]).

End ToyMore.

(** * Properties *)

(** ** The order on floats *)

Lemma float_le_not_nan x y :
  PyFloat.le x y = true → PyFloat.is_nan x = false ∧ PyFloat.is_nan y = false.
Proof. by destruct x, y. Qed.

Lemma float_le_refl x : PyFloat.is_nan x = false → PyFloat.le x x = true.
Proof.
  destruct x; simpl; try done. intros _. apply Qle_bool_iff, Qle_refl.
Qed.

Lemma float_le_trans x y z :
  PyFloat.le x y = true → PyFloat.le y z = true → PyFloat.le x z = true.
Proof.
  destruct x, y, z; simpl; try done.
  rewrite !Qle_bool_iff. apply Qle_trans.
Qed.

Lemma float_le_total x y :
  PyFloat.is_nan x = false → PyFloat.is_nan y = false →
  PyFloat.le x y = true ∨ PyFloat.le y x = true.
Proof.
  destruct x as [a| | |], y as [b| | |]; simpl; try done; auto.
  intros _ _. rewrite !Qle_bool_iff.
  destruct (Qlt_le_dec a b) as [Hlt|Hle]; [left; by apply Qlt_le_weak | by right].
Qed.

Lemma float_lt_false_le x y :
  PyFloat.is_nan x = false → PyFloat.is_nan y = false →
  PyFloat.lt x y = false → PyFloat.le y x = true.
Proof.
  destruct x, y; simpl; try done; intros _ _ H; by apply negb_false_iff in H.
Qed.

Lemma float_lt_true_le x y : PyFloat.lt x y = true → PyFloat.le x y = true.
Proof.
  intros H.
  assert (PyFloat.is_nan x = false ∧ PyFloat.is_nan y = false) as [Hx Hy]
    by (by destruct x, y).
  destruct (float_le_total x y Hx Hy) as [|Hyx]; [done|].
  destruct x, y; simpl in *; try done; by rewrite Hyx in H.
Qed.


Section Properties.

Context `{!PyRuntime} {E : GeoEngine}.

Implicit Types (m best : measured) (frame : list (row geometry)).
Implicit Types (working rest : list measured).
Implicit Types (args : gmap string string) (fs : files).

(** *** [first_min]: the minimum, at its first occurrence *)

Lemma first_min_cons best m rest :
  first_min best (m :: rest)
  = first_min (if PyFloat.lt m.2 best.2 then m else best) rest.
Proof. reflexivity. Qed.

Lemma first_min_elem best rest : first_min best rest ∈ best :: rest.
Proof.
  revert best. induction rest as [|m rest IH]; intros best; [set_solver|].
  rewrite first_min_cons.
  pose proof (IH (if PyFloat.lt m.2 best.2 then m else best)) as Hin.
  destruct (PyFloat.lt m.2 best.2).
  - apply elem_of_cons. by right.
  - apply elem_of_cons in Hin as [Hin|Hin]; rewrite !elem_of_cons; auto.
Qed.

Lemma first_min_le_best best rest :
  not_nan best → Forall not_nan rest →
  PyFloat.le (first_min best rest).2 best.2 = true.
Proof.
  revert best. induction rest as [|m rest IH]; intros best Hb Hr.
  - by apply float_le_refl.
  - rewrite first_min_cons. inversion_clear Hr as [|?? Hm Hr'].
    destruct (PyFloat.lt m.2 best.2) eqn:Hlt.
    + eapply float_le_trans; [by apply IH|]. by apply float_lt_true_le.
    + by apply IH.
Qed.

Lemma first_min_least best rest m :
  not_nan best → Forall not_nan rest → m ∈ best :: rest →
  PyFloat.le (first_min best rest).2 m.2 = true.
Proof.
  revert best. induction rest as [|m' rest IH]; intros best Hb Hr Hm.
  - apply list_elem_of_singleton in Hm as ->. by apply float_le_refl.
  - rewrite first_min_cons. inversion_clear Hr as [|?? Hm' Hr'].
    set (b' := if PyFloat.lt m'.2 best.2 then m' else best).
    assert (not_nan b') as Hb' by (unfold b'; by destruct (PyFloat.lt _ _)).
    assert (PyFloat.le b'.2 best.2 = true ∧ PyFloat.le b'.2 m'.2 = true) as [H1 H2].
    { unfold b'. destruct (PyFloat.lt m'.2 best.2) eqn:Hlt.
      - split; [by apply float_lt_true_le | by apply float_le_refl].
      - split; [by apply float_le_refl | by apply float_lt_false_le]. }
    apply elem_of_cons in Hm as [->|Hm].
    { eapply float_le_trans; [by apply first_min_le_best | done]. }
    apply elem_of_cons in Hm as [->|Hm].
    { eapply float_le_trans; [by apply first_min_le_best | done]. }
    apply IH; [done..|]. set_solver.
Qed.

(** Rows beyond a threshold never displace a best row within it. *)
Lemma first_min_filter_within t best rest :
  within t best →
  first_min best (filter (within t) rest) = first_min best rest.
Proof.
  revert best. induction rest as [|m rest IH]; intros best Hb; [done|].
  rewrite first_min_cons. destruct (decide (within t m)) as [Hm|Hm].
  - rewrite filter_cons_True by done. rewrite first_min_cons.
    apply IH. by destruct (PyFloat.lt _ _).
  - rewrite filter_cons_False by done.
    assert (PyFloat.lt m.2 best.2 = false) as ->; [|by apply IH].
    destruct (PyFloat.lt m.2 best.2) eqn:Hlt; [|done].
    exfalso. apply Hm. unfold within in *.
    eapply float_le_trans; [by apply float_lt_true_le | done].
Qed.

Lemma first_min_filter_beyond t best rest m ms :
  not_nan best → ¬ within t best → Forall not_nan rest →
  filter (within t) rest = m :: ms →
  first_min best rest = first_min m ms.
Proof.
  revert best. induction rest as [|m' rest IH]; intros best Hb Hnb Hr Hf; [done|].
  inversion_clear Hr as [|?? Hm' Hr'].
  rewrite first_min_cons. destruct (decide (within t m')) as [Hm|Hm].
  - rewrite filter_cons_True in Hf by done. injection Hf as <- <-.
    assert (PyFloat.lt m'.2 best.2 = true) as ->.
    { destruct (PyFloat.lt m'.2 best.2) eqn:Hlt; [done|].
      exfalso. apply Hnb. unfold within in *.
      eapply float_le_trans; [by apply float_lt_false_le | done]. }
    symmetry. by apply first_min_filter_within.
  - rewrite filter_cons_False in Hf by done.
    apply IH; [by destruct (PyFloat.lt _ _) | by destruct (PyFloat.lt _ _) | done..].
Qed.

(** *** [argmin] *)

Lemma argmin_unfold working :
  argmin working = match filter not_nan working with
                 | [] => None
                 | m :: ms => Some (first_min m ms)
                 end.
Proof. reflexivity. Qed.

Lemma within_not_nan t m : within t m → not_nan m.
Proof. intros Hm. by apply float_le_not_nan in Hm as [? _]. Qed.

Lemma filter_not_nan_within t working :
  filter not_nan (filter (within t) working) = filter (within t) (filter not_nan working).
Proof.
  induction working as [|m working IH]; [done|].
  destruct (decide (within t m)) as [Hm|Hm].
  - pose proof (within_not_nan _ _ Hm).
    rewrite (filter_cons_True (within t)) by done.
    rewrite !(filter_cons_True not_nan) by done.
    rewrite (filter_cons_True (within t)) by done. by rewrite IH.
  - rewrite (filter_cons_False (within t)) by done. rewrite IH.
    destruct (decide (not_nan m)).
    + rewrite (filter_cons_True not_nan) by done.
      by rewrite (filter_cons_False (within t)) by done.
    + by rewrite (filter_cons_False not_nan) by done.
Qed.

Lemma argmin_Some working m :
  argmin working = Some m →
  m ∈ working ∧ not_nan m ∧
  ∀ m', m' ∈ working → not_nan m' → PyFloat.le m.2 m'.2 = true.
Proof.
  rewrite argmin_unfold.
  destruct (filter not_nan working) as [|b rest] eqn:Hf; [done|].
  intros [= <-].
  assert (Forall not_nan (b :: rest)) as Hall.
  { rewrite <- Hf. apply Forall_forall. intros x Hx.
    by apply list_elem_of_filter in Hx as [? _]. }
  inversion Hall as [|?? Hb Hrest]; subst.
  pose proof (first_min_elem b rest) as Hin. rewrite <- Hf in Hin.
  apply list_elem_of_filter in Hin as [Hnn Hin].
  split_and!; [done..|].
  intros m' Hm' Hnn'. apply first_min_least; [done..|].
  rewrite <- Hf. by apply list_elem_of_filter.
Qed.

Lemma argmin_is_Some working m : m ∈ working → not_nan m → is_Some (argmin working).
Proof.
  intros Hm Hnn. rewrite argmin_unfold.
  destruct (filter not_nan working) as [|b rest] eqn:Hf; [|by eexists].
  assert (m ∈ filter not_nan working) as Hin by (by apply list_elem_of_filter).
  rewrite Hf in Hin. by apply elem_of_nil in Hin.
Qed.

(** The row of minimum distance among the rows within [t] is the row of
    minimum distance of the whole working. *)
Lemma argmin_filter_within t working :
  filter (within t) working ≠ [] →
  ∃ m, argmin working = Some m ∧ argmin (filter (within t) working) = Some m
       ∧ within t m.
Proof.
  intros Hne. rewrite !argmin_unfold.
  rewrite filter_not_nan_within.
  assert (filter (within t) (filter not_nan working) ≠ []) as Hne'.
  { rewrite <- filter_not_nan_within. intros Hnil. apply Hne.
    destruct (filter (within t) working) as [|x l] eqn:Hf; [done|].
    assert (x ∈ filter (within t) working) as Hx by (rewrite Hf; set_solver).
    apply list_elem_of_filter in Hx as [Hx _].
    rewrite (filter_cons_True not_nan) in Hnil; [done|].
    by eapply within_not_nan. }
  assert (Forall not_nan (filter not_nan working)) as Hall.
  { apply Forall_forall. intros x Hx. by apply list_elem_of_filter in Hx as [? _]. }
  destruct (filter not_nan working) as [|b rest]; [done|].
  inversion_clear Hall as [|?? Hb Hrest].
  destruct (decide (within t b)) as [Hwb|Hwb].
  - rewrite filter_cons_True by done.
    exists (first_min b rest). split_and!; [done| |].
    + by rewrite first_min_filter_within.
    + unfold within. eapply float_le_trans; [by apply first_min_le_best | done].
  - rewrite filter_cons_False in Hne' |- * by done.
    destruct (filter (within t) rest) as [|m ms] eqn:Hf; [done|].
    exists (first_min m ms). split_and!; [|done|].
    + f_equal. by eapply first_min_filter_beyond.
    + assert (within t m) as Hm.
      { assert (m ∈ filter (within t) rest) as Hx by (rewrite Hf; set_solver).
        by apply list_elem_of_filter in Hx as [? _]. }
      assert (Forall not_nan ms) as Hms.
      { apply Forall_forall. intros x Hx.
        assert (x ∈ filter (within t) rest) as Hx' by (rewrite Hf; set_solver).
        apply list_elem_of_filter in Hx' as [? _]. by eapply within_not_nan. }
      unfold within. eapply float_le_trans; [|exact Hm].
      apply first_min_le_best; [by eapply within_not_nan | done].
Qed.

(** *** [mapM] in the [result] monad *)

Lemma mapM_Ok {A B} (f : A → result B) (l : list A) (ks : list B) :
  mapM f l = Ok ks ↔ Forall2 (fun x k => f x = Ok k) l ks.
Proof.
  revert ks. induction l as [|x l IH]; intros ks; simpl.
  - split; [intros [= <-]; constructor | by inversion 1].
  - split.
    + destruct (f x) as [y|] eqn:Hx; [|done]. simpl.
      destruct (mapM f l) as [k|] eqn:Hl; [|done]. simpl.
      intros [= <-]. constructor; [done|]. by apply IH.
    + inversion 1 as [|?? k' ks' Hx Hl]; subst. rewrite Hx. simpl.
      apply IH in Hl. by rewrite Hl.
Qed.

Lemma mapM_Ok_length {A B} (f : A → result B) l ks :
  mapM f l = Ok ks → length ks = length l.
Proof. intros Hm. apply mapM_Ok in Hm. symmetry. by eapply Forall2_length. Qed.

(** *** [loc] on unique labels *)

Lemma loc_found working m :
  NoDup (label <$> working.*1) → m ∈ working → loc working (label m.1) = Ok m.
Proof.
  unfold loc. induction working as [|m' working IH]; intros Hnd Hm.
  { by apply elem_of_nil in Hm. }
  simpl in Hnd. apply NoDup_cons in Hnd as [Hfresh Hnd]. simpl.
  apply elem_of_cons in Hm as [->|Hm].
  - by rewrite Nat.eqb_refl.
  - destruct (Nat.eqb_spec (label m'.1) (label m.1)) as [Heq|Hne]; [|by apply IH].
    exfalso. apply Hfresh. rewrite Heq.
    apply list_elem_of_fmap_2, list_elem_of_fmap_2, Hm.
Qed.

Lemma loc_geom_found frame r :
  NoDup (label <$> frame) → r ∈ frame → loc_geom frame (label r) = Ok (geom r).
Proof.
  unfold loc_geom. induction frame as [|r' frame IH]; intros Hnd Hr.
  { by apply elem_of_nil in Hr. }
  simpl in Hnd. apply NoDup_cons in Hnd as [Hfresh Hnd]. simpl.
  apply elem_of_cons in Hr as [->|Hr].
  - by rewrite Nat.eqb_refl.
  - destruct (Nat.eqb_spec (label r') (label r)) as [Heq|Hne]; [|by apply IH].
    exfalso. apply Hfresh. rewrite Heq. by apply list_elem_of_fmap_2.
Qed.

Lemma NoDup_labels_filter (P : measured → Prop) `{!∀ m, Decision (P m)} working :
  NoDup (label <$> working.*1) → NoDup (label <$> (filter P working).*1).
Proof.
  induction working as [|m working IH]; [done|]. simpl.
  intros [Hfresh Hnd]%NoDup_cons.
  destruct (decide (P m)).
  - rewrite filter_cons_True by done. simpl. apply NoDup_cons. split; [|by apply IH].
    intros Hin. apply Hfresh.
    apply list_elem_of_fmap in Hin as (r & -> & Hr).
    apply list_elem_of_fmap in Hr as (m' & -> & Hm').
    apply list_elem_of_filter in Hm' as [_ Hm'].
    apply list_elem_of_fmap_2, list_elem_of_fmap_2, Hm'.
  - rewrite filter_cons_False by done. by apply IH.
Qed.

(** *** The frame with its distance column *)

Lemma zip_rows frame (ds : list PyFloat.t) :
  length ds = length frame → (zip frame ds).*1 = frame.
Proof. intros Hlen. apply fst_zip. lia. Qed.

Lemma zip_elem frame (ds : list PyFloat.t) m :
  m ∈ zip frame ds → m.1 ∈ frame.
Proof.
  intros Hm. destruct m as [r d]. by apply elem_of_zip_l in Hm.
Qed.

(** *** [frame_to_crs] keeps labels and converts each geometry *)

Lemma frame_to_crs_Ok (f : geometry → result geometry) frame fw :
  frame_to_crs f frame = Ok fw →
  label <$> fw = label <$> frame ∧
  ∀ r, r ∈ frame → ∃ r', r' ∈ fw ∧ label r' = label r ∧ f (geom r) = Ok (geom r').
Proof.
  unfold frame_to_crs. intros Hm. apply mapM_Ok in Hm.
  induction Hm as [|r r' frame fw Hr Hrest [IHl IHr]].
  - split; [done|]. intros r Hr. by apply elem_of_nil in Hr.
  - destruct (f (geom r)) as [g|] eqn:Hg; [|done]. simpl in Hr.
    injection Hr as <-. split; [rewrite !fmap_cons; by rewrite IHl|].
    intros r0 [->|Hr0]%elem_of_cons.
    + eexists. split; [apply elem_of_cons; by left|]. by split.
    + destruct (IHr r0 Hr0) as (r1 & Hin & Hlbl & Hgeom).
      exists r1. split; [apply elem_of_cons; by right|]. by split.
Qed.

Lemma loc_geom_to_crs (f : geometry → result geometry) frame fw r g :
  frame_to_crs f frame = Ok fw → NoDup (label <$> frame) → r ∈ frame →
  f (geom r) = Ok g → loc_geom fw (label r) = Ok g.
Proof.
  intros Hfw Hnd Hr Hg.
  destruct (frame_to_crs_Ok _ _ _ Hfw) as [Hlbl Hall].
  destruct (Hall r Hr) as (r' & Hin & Hlr & Hgeom).
  rewrite Hg in Hgeom. injection Hgeom as ->.
  rewrite <- Hlr. apply loc_geom_found; [by rewrite Hlbl | done].
Qed.

Lemma frame_to_crs_total (f : geometry → result geometry) frame :
  Forall (fun r => ∃ g, f (geom r) = Ok g) frame →
  ∃ fw, frame_to_crs f frame = Ok fw.
Proof.
  unfold frame_to_crs. induction 1 as [|r frame [g Hg] _ [fw IH]].
  - by eexists.
  - simpl. rewrite Hg. simpl. rewrite IH. by eexists.
Qed.

Lemma bind_Ok {A B} (a : A) (f : A → result B) : (Ok a ≫= f) = f a.
Proof. reflexivity. Qed.

Lemma idxmin_argmin working m :
  argmin working = Some m → idxmin working = Ok (label m.1).
Proof.
  intros Hm. unfold idxmin. rewrite Hm.
  destruct working; [|done].
  by apply argmin_Some in Hm as [?%elem_of_nil _].
Qed.

(** [proximity] when the engine raises nothing: the response is built from
    the row of minimum distance of the whole frame. *)
Lemma proximity_Ok frame lat lon maxd p ds m inside gw edge :
  point_to_crs_3857 (lon, lat) = Ok p →
  mapM (fun r => geom_distance (geom r) p) frame = Ok ds →
  NoDup (label <$> frame) →
  argmin (zip frame ds) = Some m →
  geom_contains (geom m.1) p = Ok inside →
  Forall (fun r => ∃ g, geom_to_crs_4326 (geom r) = Ok g) frame →
  geom_to_crs_4326 (geom m.1) = Ok gw →
  nearest_points (lon, lat) gw = Ok edge →
  proximity frame lat lon maxd
  = Ok (Response
          (match nearby_metros frame ds maxd with
           | [] => out_of_range_body m edge maxd
           | _ => in_range_body m inside edge (nearby_metros frame ds maxd)
           end) 200).
Proof.
  intros Hp Hd Hnd Hm Hin Hall Hgw Hedge.
  pose proof (mapM_Ok_length _ _ _ Hd) as Hlen.
  assert (NoDup (label <$> (zip frame ds).*1)) as Hndz by (by rewrite zip_rows).
  destruct (argmin_Some _ _ Hm) as (Hmz & Hnn & Hleast).
  destruct (frame_to_crs_total geom_to_crs_4326 frame Hall) as [fw Hfw].
  unfold proximity. rewrite Hp, bind_Ok, Hd, bind_Ok.
  rewrite (idxmin_argmin _ _ Hm), bind_Ok.
  rewrite (loc_found _ _ Hndz Hmz), bind_Ok.
  rewrite Hin, bind_Ok, Hfw, bind_Ok.
  rewrite (loc_geom_to_crs _ _ _ _ _ Hfw Hnd (zip_elem _ _ _ Hmz) Hgw), bind_Ok.
  rewrite Hedge, bind_Ok.
  change (filter _ (zip frame ds)) with (nearby_metros frame ds maxd).
  destruct (nearby_metros frame ds maxd) as [|n ns] eqn:Hnear; [done|].
  assert (nearby_metros frame ds maxd ≠ []) as Hne by (by rewrite Hnear).
  destruct (argmin_filter_within _ _ Hne) as (m' & Hm1 & Hm2 & Hw).
  rewrite Hm in Hm1. injection Hm1 as <-.
  change (argmin (nearby_metros frame ds maxd) = Some m) in Hm2. rewrite Hnear in Hm2.
  rewrite (idxmin_argmin _ _ Hm2), bind_Ok.
  rewrite loc_found, bind_Ok; [by rewrite Hin | |].
  - rewrite <- Hnear. by apply NoDup_labels_filter.
  - by apply argmin_Some in Hm2 as [? _].
Qed.

(** *** The shape of [check_proximity] *)

Lemma check_proximity_parsed md args lat lon maxd :
  parsed args lat lon maxd →
  check_proximity md args
  = handle
      match md with
      | None => Ok (Response (error_body "Metro data not loaded") 500)
      | Some frame =>
          match get_state_from_coords md lat lon with
          | Some s =>
              if negb (String.eqb s EmptyString) && is_excluded_state (Some s)
              then Ok (Response (excluded_body s) 200)
              else proximity frame lat lon maxd
          | None => proximity frame lat lon maxd
          end
      end.
Proof.
  intros (Hlat & Hlon & Hmax). unfold check_proximity, check_proximity_try.
  rewrite Hlat, bind_Ok, Hlon, bind_Ok, Hmax, bind_Ok.
  destruct md as [frame|]; [|done]. cbv zeta.
  by destruct (get_state_from_coords (Some frame) lat lon).
Qed.



Lemma check_proximity_not_excluded frame args lat lon maxd :
  parsed args lat lon maxd →
  is_excluded_state (get_state_from_coords (Some frame) lat lon) = false →
  check_proximity (Some frame) args = handle (proximity frame lat lon maxd).
Proof.
  intros Hargs Hex. rewrite (check_proximity_parsed _ _ _ _ _ Hargs).
  destruct (get_state_from_coords _ _ _) as [s|]; [|done].
  by rewrite Hex, andb_false_r.
Qed.

Lemma in_excluded_nonempty code :
  code ∈ EXCLUDED_STATES → is_excluded_state (Some code) = true.
Proof.
  intros Hin. unfold is_excluded_state.
  assert (String.eqb code EmptyString = false) as ->.
  { apply String.eqb_neq. intros ->. revert Hin.
    apply (bool_decide_eq_false_1 (EmptyString ∈ EXCLUDED_STATES)). by vm_compute. }
  unfold in_excluded. by rewrite (bool_decide_eq_true_2 _ Hin).
Qed.

(** *** The containment scan *)

Lemma first_containing_Some frame p r :
  first_containing frame p = Ok (Some r) →
  r ∈ frame ∧ geom_contains (geom r) p = Ok true.
Proof.
  induction frame as [|r' frame IH]; [done|]. simpl.
  destruct (geom_contains (geom r') p) as [[]|] eqn:Hc; simpl; [| |done].
  - intros [= <-]. split; [apply elem_of_cons; by left | done].
  - intros Hrest. destruct (IH Hrest) as [Hin Hr].
    split; [apply elem_of_cons; by right | done].
Qed.

Lemma first_containing_None frame p :
  Forall (fun r => geom_contains (geom r) p = Ok false) frame →
  first_containing frame p = Ok None.
Proof. induction 1 as [|r frame Hr _ IH]; [done|]. simpl. by rewrite Hr. Qed.

Lemma get_state_Some frame lat lon s :
  get_state_from_coords (Some frame) lat lon = Some s →
  ∃ p r, point_to_crs_3857 (lon, lat) = Ok p ∧ first_containing frame p = Ok (Some r)
         ∧ state_of_name (NAME r) = Some s.
Proof.
  unfold get_state_from_coords, state_lookup.
  destruct (point_to_crs_3857 (lon, lat)) as [p|] eqn:Hp; simpl; [|done].
  destruct (first_containing frame p) as [[r|]|] eqn:Hf; simpl; [|done..].
  intros Hs. by exists p, r.
Qed.

(** *** The responses of the distance stage *)

Lemma proximity_bodies frame lat lon maxd resp :
  proximity frame lat lon maxd = Ok resp →
  status resp = 200 ∧
  ((∃ m edge, body resp = out_of_range_body m edge maxd) ∨
   (∃ m inside edge nearby, body resp = in_range_body m inside edge nearby)).
Proof.
  unfold proximity.
  repeat (match goal with
          | |- context [?c ≫= _] =>
              lazymatch c with
              | context [_ ≫= _] => fail
              | _ => destruct c; [rewrite bind_Ok|done]
              end
          end).
  destruct (filter _ _).
  - intros [= <-]. split; [done|]. left. by eexists _, _.
  - repeat (match goal with
            | |- context [?c ≫= _] =>
                lazymatch c with
                | context [_ ≫= _] => fail
                | _ => destruct c; [rewrite bind_Ok|done]
                end
            end).
    intros [= <-]. split; [done|]. right. by eexists _, _, _, _.
Qed.

(** *** Iterating over the exclusion set in any order *)

Lemma find_unique_in_set (f : string → bool) (a : string) :
  a ∈ EXCLUDED_STATES → f a = true →
  Forall (fun x => f x = true → x = a) EXCLUDED_STATES →
  find f set_iter_order = Some a.
Proof.
  intros Ha Hfa Hall.
  destruct (find f set_iter_order) as [x|] eqn:Hfind.
  - apply find_some in Hfind as [Hx Hfx]. f_equal.
    apply list_elem_of_In in Hx. rewrite set_iter_order_perm in Hx.
    by apply (proj1 (Forall_forall _ _) Hall).
  - exfalso. rewrite <- set_iter_order_perm in Ha. apply list_elem_of_In in Ha.
    apply (find_none _ _ Hfind) in Ha. by rewrite Hfa in Ha.
Qed.

Lemma find_none_in_set (f : string → bool) :
  Forall (fun x => f x = false) EXCLUDED_STATES →
  find f set_iter_order = None.
Proof.
  intros Hall. destruct (find f set_iter_order) as [x|] eqn:Hfind; [|done].
  apply find_some in Hfind as [Hx Hfx].
  apply list_elem_of_In in Hx. rewrite set_iter_order_perm in Hx.
  apply (proj1 (Forall_forall _ _) Hall) in Hx. by rewrite Hx in Hfx.
Qed.

(** C2, at a name where the code leaves the claim.  The part
    ["FLAGSTAFF"] contains the abbreviation ["FL"] of the exclusion set,
    and the loop of line 44 visits abbreviations as well as full names: the
    code answers ["FL"], in whichever order the set is visited, where the
    extraction as specified answers ["AZ"]. *)
Theorem state_of_name_matches_abbreviation_inside_part :
  state_of_name "FLAGSTAFF, AZ" = Some "FL" ∧
  spec_extractJurisdiction "FLAGSTAFF, AZ" = Some "AZ".
Proof.
  split; [|reflexivity].
  unfold state_of_name.
  change (PyStr.split "," (PyStr.replace_char "-" "," "FLAGSTAFF, AZ"))
    with ["FLAGSTAFF"; " AZ"].
  cbn [scan_parts].
  change (PyStr.strip "FLAGSTAFF") with "FLAGSTAFF".
  change (Nat.eqb (String.length "FLAGSTAFF") 2 && PyStr.isupper "FLAGSTAFF")
    with false. cbv iota.
  rewrite (find_unique_in_set _ "FL"); [done| |done|].
  - by apply (bool_decide_eq_true_1 ("FL" ∈ EXCLUDED_STATES)).
  - unfold EXCLUDED_STATES. repeat constructor; by vm_compute.
Qed.

(** The examples of the claim hold on the code. *)
Lemma state_of_name_examples :
  state_of_name "Miami-Fort Lauderdale-Pompano Beach, FL" = Some "FL" ∧
  state_of_name "Portland-Vancouver-Hillsboro, OR-WA" = Some "OR".
Proof.
  assert (∀ part, Forall (fun x => PyStr.contains x part = false) EXCLUDED_STATES →
                  find (fun state => PyStr.contains state part) set_iter_order = None)
    as Hnone by (intros part; apply find_none_in_set).
  split; unfold state_of_name.
  - change (PyStr.split _ _)
      with ["Miami"; "Fort Lauderdale"; "Pompano Beach"; " FL"].
    cbn [scan_parts].
    repeat (rewrite Hnone by (unfold EXCLUDED_STATES; repeat constructor)).
    reflexivity.
  - change (PyStr.split _ _)
      with ["Portland"; "Vancouver"; "Hillsboro"; " OR"; "WA"].
    cbn [scan_parts].
    repeat (rewrite Hnone by (unfold EXCLUDED_STATES; repeat constructor)).
    reflexivity.
Qed.

(** A two-character part with a digit passes [isupper] as well. *)
Lemma state_of_name_digit_part :
  state_of_name "Area 51, A1" = Some "A1" ∧
  spec_extractJurisdiction "Area 51, A1" = None.
Proof.
  split; [|reflexivity]. unfold state_of_name.
  change (PyStr.split _ _) with ["Area 51"; " A1"]. cbn [scan_parts].
  rewrite find_none_in_set by (unfold EXCLUDED_STATES; repeat constructor).
  reflexivity.
Qed.

(** *** The allow-list *)

Lemma matches_target_iff (target_names : gset string) census_name :
  matches_target target_names census_name = true ↔
  ∃ target, target ∈ target_names ∧
            PyStr.contains (target_main target) (PyStr.lower census_name) = true.
Proof.
  unfold matches_target. rewrite existsb_exists. split.
  - intros (t & Hin & Hc). exists t. split; [|done].
    by apply elem_of_elements, list_elem_of_In.
  - intros (t & Hin & Hc). exists t. split; [|done].
    by apply list_elem_of_In, elem_of_elements.
Qed.

(** C5, as the code has it.  With a non-empty allow-list a record is kept
    exactly when the main part of some entry (the text before its first
    comma, lowercased and trimmed, every [" msa"] removed) occurs in the
    record's lowercased name; the Phoenix record is kept. *)
Theorem allow_list_keeps_names_containing_a_target :
  (∀ (target_names : gset string) (all_metro_data : list (row geometry)) r,
     target_names ≠ ∅ →
     r ∈ filter_targets target_names all_metro_data ↔
     r ∈ all_metro_data ∧
     ∃ target, target ∈ target_names ∧
               PyStr.contains (target_main target) (PyStr.lower (NAME r)) = true) ∧
  matches_target (read_targets ["Phoenix-Mesa-Chandler, AZ MSA"])
                 "Phoenix-Mesa-Chandler, AZ Metro Statistical Area" = true.
Proof.
  split; [|by vm_compute].
  intros target_names all_metro_data r Hne. unfold filter_targets.
  rewrite bool_decide_eq_true_2 by done.
  rewrite list_elem_of_filter, matches_target_iff. tauto.
Qed.

(** *** Parameters *)

Lemma float_of_arg_unparseable v :
  unparseable v → ∃ msg, float_of_arg v = Raise (ValueError msg).
Proof. intros (s & -> & _ & Hs). simpl. rewrite Hs. by eexists. Qed.

Lemma float_of_arg_supplied v :
  is_Some v → (∃ x, float_of_arg v = Ok x) ∨ (∃ msg, float_of_arg v = Raise (ValueError msg)).
Proof.
  intros [s ->]. simpl. destruct (PyFloat.of_string s); [left|right]; by eexists.
Qed.

Lemma max_distance_arg_cases v :
  (∃ x, max_distance_arg v = Ok x) ∨ (∃ msg, max_distance_arg v = Raise (ValueError msg)).
Proof.
  destruct v as [s|]; simpl; [|left; by eexists].
  destruct (PyFloat.of_string s); [left|right]; by eexists.
Qed.

(** C7, as the code has it.  When [lat] and [lon] are both supplied and
    one of [lat], [lon] or a supplied [max_distance] is an ASCII string
    that [float] does not parse, the answer is the InvalidParameters
    error, loaded or not.  A missing [max_distance] is 50, and [inf] and
    [nan] are numbers to [float]. *)
Theorem unparseable_parameter_is_invalid :
  (∀ md args,
     is_Some (args !! "lat") → is_Some (args !! "lon") →
     unparseable (args !! "lat") ∨ unparseable (args !! "lon")
       ∨ unparseable (args !! "max_distance") →
     check_proximity md args = INVALID_PARAMETERS) ∧
  max_distance_arg None = Ok (PyFloat.Fin 50) ∧
  float_of_arg (Some "inf") = Ok PyFloat.PInf ∧
  float_of_arg (Some "nan") = Ok PyFloat.NaN.
Proof.
  split; [|by vm_compute].
  intros md args Hlat Hlon Hbad. unfold check_proximity, check_proximity_try.
  destruct (float_of_arg_supplied _ Hlat) as [[lat Hl]|[msg Hl]]; rewrite Hl; [|done].
  rewrite bind_Ok.
  destruct (float_of_arg_supplied _ Hlon) as [[lon Hn]|[msg Hn]]; rewrite Hn; [|done].
  rewrite bind_Ok.
  destruct Hbad as [Hbad|[Hbad|Hbad]].
  - apply float_of_arg_unparseable in Hbad as [msg Hbad]. congruence.
  - apply float_of_arg_unparseable in Hbad as [msg Hbad]. congruence.
  - destruct Hbad as (s & Hs & _ & Hnone). rewrite Hs. simpl. by rewrite Hnone.
Qed.

(** *** Loading *)

(** C8, as the code has it.  [ensure_metro_data_loaded] does nothing once
    the frame is loaded, and runs [load_metro_data] whenever it is not: a
    load that found no shapefile leaves the frame unloaded, so each later
    call attempts the load again and prints the warning again. *)
Theorem ensure_loaded_retries_until_loaded fs p :
  (is_Some (metro_data p) → ensure_metro_data_loaded fs p = (Ok (), p)) ∧
  (metro_data p = None →
   ensure_metro_data_loaded fs p = load_metro_data fs p) ∧
  (metro_data p = None → shapefile fs = None →
   ∀ n, ensure_again fs n p
        = Process None (stdout p ++ replicate n ShapefileNotFound)).
Proof.
  split_and!.
  - intros [frame Hmd]. unfold ensure_metro_data_loaded. by rewrite Hmd.
  - intros Hmd. unfold ensure_metro_data_loaded. by rewrite Hmd.
  - intros Hmd Hfs n. unfold ensure_again. induction n as [|n IH].
    + simpl. rewrite app_nil_r. destruct p; simpl in *. by subst.
    + rewrite Nat.iter_succ, IH.
      unfold ensure_metro_data_loaded, load_metro_data. simpl. rewrite Hfs. simpl.
      unfold print. simpl. by rewrite <- app_assoc, <- replicate_cons_app.
Qed.

(** *** A load that completes leaves unique labels behind *)

Lemma read_file_labels (records : list (string * string * geometry)) :
  label <$> read_file records = seq 0 (length records).
Proof.
  unfold read_file. rewrite fmap_imap.
  rewrite (imap_ext _ (fun j _ => id j)) by done.
  by rewrite imap_seq_0, list_fmap_id.
Qed.

Lemma NoDup_fmap_filter {A B} (f : A → B) (P : A → Prop) `{!∀ x, Decision (P x)} l :
  NoDup (f <$> l) → NoDup (f <$> filter P l).
Proof.
  induction l as [|x l IH]; [done|]. rewrite fmap_cons.
  intros [Hfresh Hnd]%NoDup_cons. destruct (decide (P x)).
  - rewrite filter_cons_True by done. rewrite fmap_cons.
    apply NoDup_cons. split; [|by apply IH].
    intros (y & Hxy & Hy)%list_elem_of_fmap. apply Hfresh.
    apply list_elem_of_filter in Hy as [_ Hy]. rewrite Hxy.
    by apply list_elem_of_fmap_2.
  - rewrite filter_cons_False by done. by apply IH.
Qed.

Lemma load_metro_data_labels fs p :
  is_Some (shapefile fs) → (load_metro_data fs p).1 = Ok () →
  ∃ frame, metro_data (load_metro_data fs p).2 = Some frame
           ∧ NoDup (label <$> frame).
Proof.
  intros [records Hfs]. unfold load_metro_data. rewrite Hfs. cbv zeta.
  set (targets := match target_metros fs with
                  | Some lines => read_targets lines
                  | None => ∅
                  end).
  destruct (frame_to_crs geom_to_crs_3857 (filter_targets targets (read_file records)))
    as [projected|e] eqn:Hproj; [|done].
  intros _. exists projected. split; [done|].
  destruct (frame_to_crs_Ok _ _ _ Hproj) as [-> _].
  unfold filter_targets. destruct (bool_decide (targets ≠ ∅)).
  - apply NoDup_fmap_filter. rewrite read_file_labels. apply NoDup_seq.
  - rewrite read_file_labels. apply NoDup_seq.
Qed.

Lemma miles_to_meters_nonneg x :
  PyFloat.le (PyFloat.Fin 0) x = true →
  PyFloat.le (PyFloat.Fin 0) (PyFloat.miles_to_meters x) = true.
Proof.
  destruct x as [q| | |]; simpl; try done.
  rewrite !Qle_bool_iff, Qred_correct. intros Hq.
  apply Qmult_le_0_compat; [done|]. by unfold PyFloat.METERS_PER_MILE.
Qed.

Lemma zip_elem_of_row frame (ds : list PyFloat.t) r :
  length ds = length frame → r ∈ frame → ∃ d, (r, d) ∈ zip frame ds.
Proof.
  intros Hlen (i & Hi)%list_elem_of_lookup.
  destruct (lookup_lt_is_Some_2 ds i) as [d Hd].
  { rewrite Hlen. by eapply lookup_lt_Some. }
  exists d. apply list_elem_of_lookup. exists i.
  apply lookup_zip_with_Some. by exists r, d.
Qed.

Lemma argmin_all_not_nan working :
  working ≠ [] → Forall not_nan working →
  ∃ m, argmin working = Some m ∧ m ∈ working
       ∧ ∀ m', m' ∈ working → PyFloat.le m.2 m'.2 = true.
Proof.
  intros Hne Hall. destruct working as [|m0 working]; [done|].
  destruct (argmin_is_Some (m0 :: working) m0) as [m Hm].
  { apply elem_of_cons; by left. }
  { by inversion Hall. }
  exists m. destruct (argmin_Some _ _ Hm) as (Hin & _ & Hleast).
  split_and!; [done..|]. intros m' Hm'. apply Hleast; [done|].
  by eapply Forall_forall in Hall.
Qed.

(** C6.  When some region lies within the radius, the region of minimum
    distance among those within the radius is the region of minimum
    distance of the whole frame: both lookups of [check_proximity] return
    the same row, no row with a distance is nearer, and the within-range
    result reports that row: its name and code, with the boundary point
    computed for the row of the global ranking. *)
Theorem nearby_nearest_is_global_nearest frame args lat lon maxd p ds :
  parsed args lat lon maxd →
  engine_answers frame lat lon p ds →
  NoDup (label <$> frame) →
  is_excluded_state (get_state_from_coords (Some frame) lat lon) = false →
  nearby_metros frame ds maxd ≠ [] →
  let working := zip frame ds in
  let nearby := nearby_metros frame ds maxd in
  ∃ m inside gw edge,
    (idxmin working ≫= loc working) = Ok m ∧
    (idxmin nearby ≫= loc nearby) = Ok m ∧
    (∀ m', m' ∈ working → not_nan m' → PyFloat.le m.2 m'.2 = true) ∧
    geom_contains (geom m.1) p = Ok inside ∧
    geom_to_crs_4326 (geom m.1) = Ok gw ∧
    nearest_points (lon, lat) gw = Ok edge ∧
    proximity frame lat lon maxd
    = Ok (Response (in_range_body m inside edge nearby) 200) ∧
    let resp := check_proximity (Some frame) args in
    status resp = 200 ∧
    jget "within_range" (body resp) = Some (JBool true) ∧
    (jget "nearest_metro" (body resp) ≫= jget "name") = Some (JStr (NAME m.1)) ∧
    (jget "nearest_metro" (body resp) ≫= jget "cbsa_code")
    = Some (JStr (CBSAFP m.1)) ∧
    (jget "nearest_metro" (body resp) ≫= jget "edge_coords")
    = Some (JList [JFloat edge.2; JFloat edge.1]).
Proof.
  intros Hargs (Hp & Hd & Hc & Hw) Hnd Hex Hne. cbv zeta.
  destruct (argmin_filter_within _ _ Hne) as (m & Hall & Hnear & _).
  destruct (argmin_Some _ _ Hall) as (Hin & _ & Hleast).
  destruct (argmin_Some _ _ Hnear) as (Hin' & _ & _).
  pose proof (mapM_Ok_length _ _ _ Hd) as Hlen.
  assert (NoDup (label <$> (zip frame ds).*1)) as Hndz by (by rewrite zip_rows).
  pose proof (zip_elem _ _ _ Hin) as Hrow.
  destruct (proj1 (Forall_forall _ _) Hc _ Hrow) as [inside Hinside].
  destruct (proj1 (Forall_forall _ _) Hw _ Hrow) as (gw & edge & Hgw & Hedge).
  assert (Forall (fun r => ∃ g, geom_to_crs_4326 (geom r) = Ok g) frame) as Hcrs.
  { eapply Forall_impl; [exact Hw|]. intros ? (g & ? & ? & _). by eexists. }
  assert (proximity frame lat lon maxd
          = Ok (Response (in_range_body m inside edge (nearby_metros frame ds maxd))
                  200)) as Hprox.
  { rewrite (proximity_Ok _ _ _ maxd _ _ _ _ _ _ Hp Hd Hnd Hall Hinside Hcrs Hgw Hedge).
    destruct (nearby_metros frame ds maxd) as [|n ns]; [|done].
    exfalso. by apply Hne. }
  exists m, inside, gw, edge.
  split. { rewrite (idxmin_argmin _ _ Hall), bind_Ok. by apply loc_found. }
  split.
  { assert (idxmin (nearby_metros frame ds maxd) = Ok (label m.1)) as ->
      by (apply idxmin_argmin; exact Hnear).
    rewrite bind_Ok. apply loc_found; [|exact Hin'].
    unfold nearby_metros. by apply NoDup_labels_filter. }
  do 5 (split; [done|]).
  rewrite (check_proximity_not_excluded _ _ _ _ _ Hargs Hex), Hprox.
  by split_and!.
Qed.


(** C3, as the code has it.  For a radius that is not negative and a query
    that is not excluded: when the point is strictly inside a loaded
    region and lies on no region's boundary (distances are not negative,
    and a region is at distance zero exactly when it contains the point),
    the result reports [is_inside_metro] true and a distance to the edge
    of 0. *)
Theorem inside_region_reported frame args lat lon maxd p ds r :
  parsed args lat lon maxd →
  engine_answers frame lat lon p ds →
  NoDup (label <$> frame) →
  is_excluded_state (get_state_from_coords (Some frame) lat lon) = false →
  PyFloat.le (PyFloat.Fin 0) maxd = true →
  r ∈ frame → geom_contains (geom r) p = Ok true →
  Forall (fun m => PyFloat.le (PyFloat.Fin 0) m.2 = true ∧
                   (geom_contains (geom m.1) p = Ok true
                    ↔ PyFloat.le m.2 (PyFloat.Fin 0) = true)) (zip frame ds) →
  let resp := check_proximity (Some frame) args in
  status resp = 200 ∧
  jget "within_range" (body resp) = Some (JBool true) ∧
  jget "is_inside_metro" (body resp) = Some (JBool true) ∧
  (jget "nearest_metro" (body resp) ≫= jget "distance_to_edge_miles")
  = Some (JInt 0).
Proof.
  intros Hargs (Hp & Hd & Hc & Hw) Hnd Hex Hmax Hr Hinside Hlaws.
  pose proof (mapM_Ok_length _ _ _ Hd) as Hlen.
  pose proof (proj1 (Forall_forall _ _) Hlaws) as Hlaw.
  destruct (zip_elem_of_row _ _ _ Hlen Hr) as [d Hrd].
  destruct (Hlaw _ Hrd) as [_ Hzero]. apply Hzero in Hinside. simpl in Hinside.
  destruct (argmin_all_not_nan (zip frame ds)) as (m & Hm & Hin & Hleast).
  { intros Hnil. rewrite Hnil in Hrd. by apply elem_of_nil in Hrd. }
  { apply Forall_forall. intros m Hm. destruct (Hlaw _ Hm) as [Hpos _].
    by apply float_le_not_nan in Hpos as [_ ?]. }
  assert (PyFloat.le m.2 (PyFloat.Fin 0) = true) as Hm0.
  { eapply float_le_trans; [by apply (Hleast _ Hrd) | done]. }
  assert (geom_contains (geom m.1) p = Ok true) as Hmin by (by apply Hlaw).
  pose proof (zip_elem _ _ _ Hin) as Hrow.
  destruct (proj1 (Forall_forall _ _) Hw _ Hrow) as (gw & edge & Hgw & Hedge).
  rewrite (check_proximity_not_excluded _ _ _ _ _ Hargs Hex).
  assert (Forall (fun r => ∃ g, geom_to_crs_4326 (geom r) = Ok g) frame) as Hall.
  { eapply Forall_impl; [exact Hw|]. intros ? (g & ? & ? & _). by eexists. }
  rewrite (proximity_Ok _ _ _ maxd _ _ _ _ _ _ Hp Hd Hnd Hm Hmin Hall Hgw Hedge).
  assert (m ∈ nearby_metros frame ds maxd) as Hnear.
  { apply list_elem_of_filter. split; [|done]. unfold within.
    eapply float_le_trans; [done|]. by apply miles_to_meters_nonneg. }
  destruct (nearby_metros frame ds maxd); [by apply elem_of_nil in Hnear|done].
Qed.

Lemma get_state_first_containing frame lat lon p r :
  point_to_crs_3857 (lon, lat) = Ok p →
  first_containing frame p = Ok (Some r) →
  get_state_from_coords (Some frame) lat lon = state_of_name (NAME r).
Proof.
  intros Hp Hr. unfold get_state_from_coords, state_lookup.
  by rewrite Hp, bind_Ok, Hr, bind_Ok.
Qed.

(** C9.  When the jurisdiction lookup yields no code, or raises, the query
    is not excluded: the response is the one of the distance computation
    and has no [excluded] field; when that computation completes, the
    response is its normal result, with status 200, [within_range] and
    [nearest_metro]. *)
Theorem exclusion_check_fails_soft frame args lat lon maxd :
  parsed args lat lon maxd →
  (state_lookup (Some frame) lat lon = Ok None
   ∨ ∃ e, state_lookup (Some frame) lat lon = Raise e) →
  let resp := check_proximity (Some frame) args in
  resp = handle (proximity frame lat lon maxd) ∧
  jget "excluded" (body resp) = None ∧
  ∀ r, proximity frame lat lon maxd = Ok r →
       resp = r ∧ status resp = 200 ∧
       is_Some (jget "within_range" (body resp)) ∧
       is_Some (jget "nearest_metro" (body resp)).
Proof.
  intros Hargs Hlookup resp.
  assert (get_state_from_coords (Some frame) lat lon = None) as Hstate.
  { unfold get_state_from_coords. by destruct Hlookup as [->|[e ->]]. }
  assert (resp = handle (proximity frame lat lon maxd)) as Hresp.
  { unfold resp. rewrite (check_proximity_not_excluded _ _ _ _ _ Hargs); [done|].
    by rewrite Hstate. }
  rewrite Hresp. split; [done|].
  destruct (proximity frame lat lon maxd) as [r|e] eqn:Hprox.
  - destruct (proximity_bodies _ _ _ _ _ Hprox) as [Hst Hbody]. simpl. split.
    + by destruct Hbody as [(m & edge & ->)|(m & inside & edge & nearby & ->)].
    + intros r' [= <-]. split_and!; [done..| |];
        destruct Hbody as [(m & edge & ->)|(m & inside & edge & nearby & ->)];
        by eexists.
  - split; [by destruct e|done].
Qed.

(** C10.  Every response that carries [excluded] reports [within_range]
    false, although the query point then lies inside a loaded region. *)
Theorem excluded_reports_out_of_range md args :
  let resp := check_proximity md args in
  jget "excluded" (body resp) = Some (JBool true) →
  jget "within_range" (body resp) = Some (JBool false) ∧
  ∃ frame lat lon maxd p r,
    md = Some frame ∧ parsed args lat lon maxd ∧
    point_to_crs_3857 (lon, lat) = Ok p ∧
    r ∈ frame ∧ geom_contains (geom r) p = Ok true.
Proof.
  intros resp. unfold resp, check_proximity, check_proximity_try.
  destruct (float_of_arg (args !! "lat")) as [lat|e] eqn:Hlat;
    [rewrite bind_Ok | by destruct e].
  destruct (float_of_arg (args !! "lon")) as [lon|e] eqn:Hlon;
    [rewrite bind_Ok | by destruct e].
  destruct (max_distance_arg (args !! "max_distance")) as [maxd|e] eqn:Hmax;
    [rewrite bind_Ok | by destruct e].
  destruct md as [frame|]; [|done]. cbv zeta.
  assert (∀ out, out = proximity frame lat lon maxd →
                 jget "excluded" (body (handle out)) = Some (JBool true) → False)
    as Hprox.
  { intros out ->. destruct (proximity frame lat lon maxd) as [r|e] eqn:Hp.
    - destruct (proximity_bodies _ _ _ _ _ Hp) as [_ Hbody]. simpl.
      by destruct Hbody as [(m & edge & ->)|(m & inside & edge & nearby & ->)].
    - by destruct e. }
  destruct (get_state_from_coords (Some frame) lat lon) as [s|] eqn:Hs;
    [|intros Hex; by destruct (Hprox _ eq_refl Hex)].
  destruct (negb (String.eqb s EmptyString) && is_excluded_state (Some s));
    [|intros Hex; by destruct (Hprox _ eq_refl Hex)].
  intros _. split; [done|].
  destruct (get_state_Some _ _ _ _ Hs) as (p & r & Hp & Hr & _).
  destruct (first_containing_Some _ _ _ Hr) as [Hin Hc].
  by exists frame, lat, lon, maxd, p, r.
Qed.

End Properties.


(** * Worked examples on the planar engine *)

Module Examples.

Import Toy.

#[local] Existing Instances runtime engine.



(** C2: both examples of the claim, and the failing name, under the
    runtime that visits the set in source order. *)
Lemma state_of_name_on_samples :
  state_of_name "Miami-Fort Lauderdale-Pompano Beach, FL" = Some "FL" ∧
  state_of_name "Portland-Vancouver-Hillsboro, OR-WA" = Some "OR" ∧
  state_of_name "New York-Newark-Jersey City, NY-NJ-PA" = Some "New York" ∧
  state_of_name "FLAGSTAFF, AZ" = Some "FL".
Proof. repeat split; reflexivity. Qed.

(** C3 fails as stated.  Inside the Phoenix region, which is not excluded:
    with a radius of -1 mile the result says [is_inside_metro] false; and
    with the default radius, when the point is also on the edge of a
    region loaded earlier, that region is the nearest and the result says
    [is_inside_metro] false again. *)
Lemma inside_region_counterexample :
  let p := (PyFloat.Fin 550000, PyFloat.Fin 50000) in
  point_to_crs_3857 (PyFloat.Fin (11 # 2), PyFloat.Fin (1 # 2)) = Ok p ∧
  geom_contains (geom phoenix) p = Ok true ∧
  get_state_from_coords (Some store) (PyFloat.Fin (1 # 2)) (PyFloat.Fin (11 # 2))
  = Some "AZ" ∧
  get_state_from_coords (Some overlapping) (PyFloat.Fin (1 # 2)) (PyFloat.Fin (11 # 2))
  = Some "AZ" ∧
  is_excluded_state (Some "AZ") = false ∧
  jget "is_inside_metro"
    (body (check_proximity (Some store) (query "0.5" "5.5" (Some "-1"))))
  = Some (JBool false) ∧
  jget "is_inside_metro"
    (body (check_proximity (Some overlapping) (query "0.5" "5.5" None)))
  = Some (JBool false).
Proof. repeat split; reflexivity. Qed.

(** C3 as amended, at the same point with the default radius. *)
Lemma inside_region_reported_witness :
  let resp := check_proximity (Some store) (query "0.5" "5.5" None) in
  status resp = 200 ∧
  jget "within_range" (body resp) = Some (JBool true) ∧
  jget "is_inside_metro" (body resp) = Some (JBool true) ∧
  (jget "nearest_metro" (body resp) ≫= jget "distance_to_edge_miles")
  = Some (JInt 0).
Proof.
  apply (@inside_region_reported runtime engine store (query "0.5" "5.5" None)
           (PyFloat.Fin (1 # 2)) (PyFloat.Fin (11 # 2)) (PyFloat.Fin 50)
           (PyFloat.Fin 550000, PyFloat.Fin 50000)
           [PyFloat.Fin 450000; PyFloat.Fin 0; PyFloat.Fin 350000] phoenix).
  - repeat split; reflexivity.
  - split_and!; [reflexivity..| |];
      repeat constructor; repeat eexists; reflexivity.
  - apply (bool_decide_unpack _). reflexivity.
  - reflexivity.
  - reflexivity.
  - apply elem_of_cons; right. apply elem_of_cons; left. reflexivity.
  - reflexivity.
  - repeat constructor; simpl; (reflexivity || discriminate).
Defined.


(** C5 fails as stated, in both directions: the entry ["Portland, OR"]
    keeps the Portland record, whose normalised name is no substring of
    the normalised entry; and the New York entry does not keep a record
    named ["York, PA"], whose normalised name is a substring of the
    normalised entry. *)
Lemma allow_list_counterexample :
  matches_target {["Portland, OR"]} "Portland-Vancouver-Hillsboro, OR-WA" = true ∧
  spec_retained {["Portland, OR"]} "Portland-Vancouver-Hillsboro, OR-WA" = false ∧
  matches_target {["New York-Newark-Jersey City, NY-NJ-PA MSA"]} "York, PA" = false ∧
  spec_retained {["New York-Newark-Jersey City, NY-NJ-PA MSA"]} "York, PA" = true ∧
  filter_targets {["Portland, OR"]} store = [portland].
Proof. repeat split; reflexivity. Qed.

(** C5 as amended: the Phoenix entry keeps the Phoenix row of the store. *)
Lemma allow_list_keeps_names_containing_a_target_witness :
  phoenix ∈ filter_targets (read_targets ["Phoenix-Mesa-Chandler, AZ MSA"]) store.
Proof.
  apply (proj1 (@allow_list_keeps_names_containing_a_target engine)).
  - apply (bool_decide_unpack _). reflexivity.
  - split.
    + apply elem_of_cons; right. apply elem_of_cons; left. reflexivity.
    + exists "Phoenix-Mesa-Chandler, AZ MSA". split; [|reflexivity].
      apply (bool_decide_unpack _). reflexivity.
Defined.

(** C6 between Miami and Phoenix with a radius of 125 miles: Miami,
    the global nearest, is the region of the result. *)
Lemma nearby_nearest_is_global_nearest_witness :
  let ds := [PyFloat.Fin 200000; PyFloat.Fin 200000; PyFloat.Fin 600000] in
  let working : list (@measured engine) := zip store ds in
  let nearby : list (@measured engine) := nearby_metros store ds (PyFloat.Fin 125) in
  ∃ (m : @measured engine) inside gw edge,
    (idxmin working ≫= loc working) = Ok m ∧
    (idxmin nearby ≫= loc nearby) = Ok m ∧
    (∀ m', m' ∈ working → not_nan m' → PyFloat.le m.2 m'.2 = true) ∧
    geom_contains (geom m.1) (PyFloat.Fin 300000, PyFloat.Fin 50000) = Ok inside ∧
    geom_to_crs_4326 (geom m.1) = Ok gw ∧
    nearest_points (PyFloat.Fin 3, PyFloat.Fin (1 # 2)) gw = Ok edge ∧
    proximity store (PyFloat.Fin (1 # 2)) (PyFloat.Fin 3) (PyFloat.Fin 125)
    = Ok (Response (in_range_body m inside edge nearby) 200) ∧
    let resp := check_proximity (Some store) (query "0.5" "3" (Some "125")) in
    status resp = 200 ∧
    jget "within_range" (body resp) = Some (JBool true) ∧
    (jget "nearest_metro" (body resp) ≫= jget "name") = Some (JStr (NAME m.1)) ∧
    (jget "nearest_metro" (body resp) ≫= jget "cbsa_code")
    = Some (JStr (CBSAFP m.1)) ∧
    (jget "nearest_metro" (body resp) ≫= jget "edge_coords")
    = Some (JList [JFloat edge.2; JFloat edge.1]).
Proof.
  apply (@nearby_nearest_is_global_nearest runtime engine store
           (query "0.5" "3" (Some "125"))
           (PyFloat.Fin (1 # 2)) (PyFloat.Fin 3) (PyFloat.Fin 125)
           (PyFloat.Fin 300000, PyFloat.Fin 50000)).
  - repeat split; reflexivity.
  - split_and!; [reflexivity..| |];
      repeat constructor; repeat eexists; reflexivity.
  - apply (bool_decide_unpack _). reflexivity.
  - reflexivity.
  - discriminate.
Defined.

(** C7 fails as stated: without [max_distance], and with an infinite one,
    the query is answered normally; without [lat] the error is not the
    InvalidParameters one. *)
Lemma invalid_parameters_counterexample :
  query "0.5" "3" None !! "max_distance" = None ∧
  status (check_proximity (Some store) (query "0.5" "3" None)) = 200 ∧
  PyFloat.of_string "inf" = Some PyFloat.PInf ∧
  status (check_proximity (Some store) (query "0.5" "3" (Some "inf"))) = 200 ∧
  jget "within_range"
    (body (check_proximity (Some store) (query "0.5" "3" (Some "inf"))))
  = Some (JBool true) ∧
  status (check_proximity (Some store) (<["lon" := "3"]> ∅)) = 500.
Proof. repeat split; reflexivity. Qed.

(** C7 as amended, on a latitude that is not a number, with no data. *)
Lemma unparseable_parameter_is_invalid_witness :
  check_proximity None (query "north" "3" None) = INVALID_PARAMETERS.
Proof.
  apply (proj1 (@unparseable_parameter_is_invalid runtime engine)).
  - by eexists.
  - by eexists.
  - left. exists "north". repeat split; reflexivity.
Defined.

(** C8 fails as stated: after the load at import found no shapefile, the
    next call attempts the load again (the warning is printed a second
    time), and loads the frame once the shapefile is there. *)
Lemma ensure_loaded_counterexample :
  let failed := (import_module no_shapefile).2 in
  failed = Process None [ShapefileNotFound] ∧
  (ensure_metro_data_loaded no_shapefile failed).2
  = Process None [ShapefileNotFound; ShapefileNotFound] ∧
  (ensure_metro_data_loaded two_records failed).2
  = Process (Some [Row 0 "Miami-Fort Lauderdale-Pompano Beach, FL" "33100"
                     (Rect 0 0 100000 100000);
                   Row 1 "Phoenix-Mesa-Chandler, AZ" "38060"
                     (Rect 500000 0 600000 100000)])
            [ShapefileNotFound; LoadingCensus; NoFilterApplied 2].
Proof. repeat split; reflexivity. Qed.

(** C8 as amended: two more calls after the failed load at import. *)
Lemma ensure_loaded_retries_until_loaded_witness :
  ensure_again no_shapefile 2 (import_module no_shapefile).2
  = Process None
      ([ShapefileNotFound] ++ [ShapefileNotFound; ShapefileNotFound]).
Proof.
  apply (proj2 (proj2 (@ensure_loaded_retries_until_loaded engine
                         no_shapefile (import_module no_shapefile).2)));
    reflexivity.
Defined.

(** C9 on a frame whose first region has an invalid polygon: the lookup
    raises, and the query is answered from the distances. *)
Lemma exclusion_check_fails_soft_witness :
  let lat := PyFloat.Fin (1 # 2) in
  let lon := PyFloat.Fin (11 # 2) in
  let resp := check_proximity (Some with_invalid) (query "0.5" "5.5" None) in
  state_lookup (Some with_invalid) lat lon = Raise (OtherError "TopologyException") ∧
  resp = handle (proximity with_invalid lat lon (PyFloat.Fin 50)) ∧
  jget "excluded" (body resp) = None ∧
  ∀ r, proximity with_invalid lat lon (PyFloat.Fin 50) = Ok r →
       resp = r ∧ status resp = 200 ∧
       is_Some (jget "within_range" (body resp)) ∧
       is_Some (jget "nearest_metro" (body resp)).
Proof.
  split; [reflexivity|].
  apply (@exclusion_check_fails_soft runtime engine).
  - repeat split; reflexivity.
  - right. eexists. reflexivity.
Defined.

(** The distance computation of that query completes. *)
Lemma proximity_with_invalid_region :
  jget "is_inside_metro"
    (body (check_proximity (Some with_invalid) (query "0.5" "5.5" None)))
  = Some (JBool true).
Proof. reflexivity. Qed.

(** C10 at a point inside the Miami region. *)
Lemma excluded_reports_out_of_range_witness :
  let resp := check_proximity (Some store) (query "0.5" "0.5" None) in
  jget "within_range" (body resp) = Some (JBool false) ∧
  ∃ frame lat lon maxd p r,
    Some store = Some frame ∧ parsed (query "0.5" "0.5" None) lat lon maxd ∧
    point_to_crs_3857 (lon, lat) = Ok p ∧
    r ∈ frame ∧ geom_contains (geom r) p = Ok true.
Proof.
  apply (@excluded_reports_out_of_range runtime engine). reflexivity.
Defined.

End Examples.

(** * More properties of the code *)

Section MoreProperties.

Context `{!PyRuntime} {E : GeoEngine}.

Implicit Types (m : measured) (frame : list (row geometry)).
Implicit Types (working : list measured).
Implicit Types (args : gmap string string) (fs : files).

(** *** Jurisdiction classifier *)

Lemma scan_parts_shape parts code :
  scan_parts parts = Some code →
  (String.length code = 2 ∧ PyStr.isupper code = true) ∨ code ∈ EXCLUDED_STATES.
Proof.
  induction parts as [|part parts IH]; [done|]. simpl.
  destruct (Nat.eqb (String.length (PyStr.strip part)) 2
            && PyStr.isupper (PyStr.strip part)) eqn:Hab.
  - intros [= <-]. left. apply andb_true_iff in Hab as [Hlen Hup].
    by apply Nat.eqb_eq in Hlen.
  - destruct (find _ set_iter_order) as [state|] eqn:Hfind; [|done].
    intros [= <-]. right. apply find_some in Hfind as [Hin _].
    apply list_elem_of_In in Hin. by rewrite set_iter_order_perm in Hin.
Qed.

(** X1.  Whatever the name, a code that [state_of_name] extracts is either
    a part of exactly two characters that passes [isupper], or a member of
    the exclusion set, which [is_excluded_state] then excludes: a code of
    any other length is always an excluded one. *)
Theorem state_of_name_code_shape name code :
  state_of_name name = Some code →
  (String.length code = 2 ∧ PyStr.isupper code = true) ∨
  (code ∈ EXCLUDED_STATES ∧ is_excluded_state (Some code) = true).
Proof.
  intros Hcode. apply scan_parts_shape in Hcode as [Hab|Hin]; [by left|].
  right. split; [done|]. by apply in_excluded_nonempty.
Qed.

(** *** The containment scan *)

Lemma first_containing_app before r after p :
  Forall (fun r' => geom_contains (geom r') p = Ok false) before →
  geom_contains (geom r) p = Ok true →
  first_containing (before ++ r :: after)%list p = Ok (Some r).
Proof.
  induction 1 as [|r' before Hr' _ IH]; intros Hr; simpl.
  - by rewrite Hr.
  - rewrite Hr'. simpl. by apply IH.
Qed.

(** X2.  The containment scan returns a row exactly when that row contains
    the point and every row loaded before it answers that it does not:
    where polygons overlap, the region loaded first decides. *)
Theorem first_containing_is_first_hit frame p r :
  first_containing frame p = Ok (Some r) ↔
  ∃ before after,
    frame = (before ++ r :: after)%list ∧
    Forall (fun r' => geom_contains (geom r') p = Ok false) before ∧
    geom_contains (geom r) p = Ok true.
Proof.
  split.
  - induction frame as [|r' frame IH]; [done|]. simpl.
    destruct (geom_contains (geom r') p) as [[]|] eqn:Hc; simpl; [| |done].
    + intros [= <-]. by exists [], frame.
    + intros Hrest. destruct (IH Hrest) as (before & after & -> & Hb & Hr).
      exists (r' :: before), after. split_and!; [done| |done].
      by constructor.
  - intros (before & after & -> & Hb & Hr). by apply first_containing_app.
Qed.

(** X3.  Only the first region that contains the point is asked for a
    jurisdiction: when its name yields no code or a code that is not
    excluded, the query goes on to the distance computation, whatever the
    regions loaded after it are. *)
Theorem exclusion_decided_by_first_containing frame args lat lon maxd p r :
  parsed args lat lon maxd →
  point_to_crs_3857 (lon, lat) = Ok p →
  first_containing frame p = Ok (Some r) →
  is_excluded_state (state_of_name (NAME r)) = false →
  check_proximity (Some frame) args = handle (proximity frame lat lon maxd).
Proof.
  intros Hargs Hp Hr Hex. apply (check_proximity_not_excluded _ _ _ _ _ Hargs).
  by rewrite (get_state_first_containing _ _ _ _ _ Hp Hr).
Qed.

End MoreProperties.

Lemma float_lt_not_nan x y :
  PyFloat.lt x y = true → PyFloat.is_nan x = false ∧ PyFloat.is_nan y = false.
Proof. by destruct x, y. Qed.

Lemma float_lt_negb_le x y :
  PyFloat.is_nan x = false → PyFloat.is_nan y = false →
  PyFloat.lt x y = negb (PyFloat.le y x).
Proof. by destruct x, y. Qed.

Lemma float_lt_le_trans x y z :
  PyFloat.lt x y = true → PyFloat.le y z = true → PyFloat.lt x z = true.
Proof.
  intros Hxy Hyz.
  destruct (float_lt_not_nan _ _ Hxy) as [Hx Hy].
  destruct (float_le_not_nan _ _ Hyz) as [_ Hz].
  rewrite float_lt_negb_le in Hxy |- * by done.
  apply negb_true_iff in Hxy. apply negb_true_iff.
  destruct (PyFloat.le z x) eqn:Hzx; [|done].
  by rewrite (float_le_trans _ _ _ Hyz Hzx) in Hxy.
Qed.

Lemma float_le_lt_trans x y z :
  PyFloat.le x y = true → PyFloat.lt y z = true → PyFloat.lt x z = true.
Proof.
  intros Hxy Hyz.
  destruct (float_lt_not_nan _ _ Hyz) as [Hy Hz].
  destruct (float_le_not_nan _ _ Hxy) as [Hx _].
  rewrite float_lt_negb_le in Hyz |- * by done.
  apply negb_true_iff in Hyz. apply negb_true_iff.
  destruct (PyFloat.le z x) eqn:Hzx; [|done].
  by rewrite (float_le_trans _ _ _ Hzx Hxy) in Hyz.
Qed.

Lemma filter_split {A} (P : A → Prop) `{!∀ x, Decision (P x)} (l l1 l2 : list A) x :
  filter P l = (l1 ++ x :: l2)%list →
  ∃ k1 k2, l = (k1 ++ x :: k2)%list ∧ filter P k1 = l1 ∧ filter P k2 = l2.
Proof.
  revert l1. induction l as [|y l IH]; intros l1 Hf.
  { by destruct l1. }
  destruct (decide (P y)) as [Hy|Hy].
  - rewrite filter_cons_True in Hf by done. destruct l1 as [|z l1]; simpl in Hf.
    + injection Hf as -> <-. by exists [], l.
    + injection Hf as <- Hf. destruct (IH _ Hf) as (k1 & k2 & -> & <- & <-).
      exists (y :: k1), k2. split_and!; [done| |done].
      by rewrite filter_cons_True.
  - rewrite filter_cons_False in Hf by done.
    destruct (IH _ Hf) as (k1 & k2 & -> & <- & <-).
    exists (y :: k1), k2. split_and!; [done| |done].
    by rewrite filter_cons_False.
Qed.

Section MoreFrames.

Context `{!PyRuntime} {E : GeoEngine}.

Implicit Types (m best : measured) (frame : list (row geometry)).
Implicit Types (working rest : list measured).
Implicit Types (args : gmap string string) (fs : files).

(** *** The first occurrence of the minimum *)

Lemma first_min_split best rest :
  not_nan best → Forall not_nan rest →
  ∃ l1 l2,
    best :: rest = (l1 ++ first_min best rest :: l2)%list ∧
    ∀ x, x ∈ l1 → PyFloat.lt (first_min best rest).2 x.2 = true.
Proof.
  revert best. induction rest as [|m rest IH]; intros best Hb Hr.
  { exists [], []. split; [done|]. intros x Hx. by apply elem_of_nil in Hx. }
  inversion_clear Hr as [|?? Hm Hr']. rewrite first_min_cons.
  destruct (PyFloat.lt m.2 best.2) eqn:Hlt.
  - destruct (IH m Hm Hr') as (l1 & l2 & Heq & Hl1).
    exists (best :: l1), l2. split; [simpl; by rewrite <- Heq|].
    intros x [->|Hx]%elem_of_cons; [|by apply Hl1].
    eapply float_le_lt_trans; [by apply first_min_le_best | done].
  - destruct (IH best Hb Hr') as (l1 & l2 & Heq & Hl1).
    destruct l1 as [|b l1]; simpl in Heq.
    + injection Heq as Hbest <-. exists [], (m :: rest).
      split; [simpl; by rewrite <- Hbest|].
      intros x Hx. by apply elem_of_nil in Hx.
    + injection Heq as Hb' Hrest'. subst b.
      exists (best :: m :: l1), l2. split; [simpl; by rewrite <- Hrest'|].
      assert (PyFloat.lt (first_min best rest).2 best.2 = true) as Hfb.
      { apply Hl1. apply elem_of_cons; by left. }
      intros x [->|[->|Hx]%elem_of_cons]%elem_of_cons; [done| |].
      * eapply float_lt_le_trans; [exact Hfb|]. by apply float_lt_false_le.
      * apply Hl1. apply elem_of_cons; by right.
Qed.

Lemma idxmin_loc_argmin working m :
  NoDup (label <$> working.*1) →
  (idxmin working ≫= loc working) = Ok m → argmin working = Some m.
Proof.
  intros Hnd. unfold idxmin. destruct working as [|m0 working]; [done|].
  destruct (argmin (m0 :: working)) as [m'|] eqn:Hm'; [|done].
  rewrite bind_Ok. destruct (argmin_Some _ _ Hm') as (Hin & _ & _).
  rewrite (loc_found _ _ Hnd Hin). by intros [= <-].
Qed.

(** X4.  The row that [idxmin] and [loc] pick is the first occurrence of
    the minimum: every row before it that has a distance is strictly
    farther, and no row after it is nearer.  Among regions at the same
    minimal distance the one loaded first is reported. *)
Theorem idxmin_picks_first_minimum working m :
  NoDup (label <$> working.*1) →
  (idxmin working ≫= loc working) = Ok m →
  ∃ before after,
    working = (before ++ m :: after)%list ∧ not_nan m ∧
    (∀ m', m' ∈ before → not_nan m' → PyFloat.lt m.2 m'.2 = true) ∧
    (∀ m', m' ∈ after → not_nan m' → PyFloat.le m.2 m'.2 = true).
Proof.
  intros Hnd Hm. apply (idxmin_loc_argmin _ _ Hnd) in Hm.
  destruct (argmin_Some _ _ Hm) as (Hin & Hnn & Hleast).
  rewrite argmin_unfold in Hm.
  destruct (filter not_nan working) as [|b rest] eqn:Hf; [done|].
  injection Hm as Hm.
  assert (Forall not_nan (b :: rest)) as Hall.
  { rewrite <- Hf. apply Forall_forall. intros x Hx.
    by apply list_elem_of_filter in Hx as [? _]. }
  apply Forall_cons in Hall as [Hb Hrest].
  destruct (first_min_split _ _ Hb Hrest) as (l1 & l2 & Heq & Hl1).
  rewrite Hm in Heq, Hl1. rewrite Heq in Hf.
  destruct (filter_split _ _ _ _ _ Hf) as (k1 & k2 & -> & Hk1 & Hk2).
  exists k1, k2. split_and!; [done..| |].
  - intros m' Hm' Hnn'. apply Hl1. rewrite <- Hk1. by apply list_elem_of_filter.
  - intros m' Hm' Hnn'. apply Hleast; [|done].
    apply elem_of_app. right. apply elem_of_cons. by right.
Qed.

End MoreFrames.

Section MoreQueries.

Context `{!PyRuntime} {E : GeoEngine}.

Implicit Types (m best : measured) (frame : list (row geometry)).
Implicit Types (working rest : list measured).
Implicit Types (args : gmap string string) (fs : files).

(** *** Error and edge behaviour of [check_proximity] *)

(** X5.  On a frame that is loaded but empty (the allow-list matched no
    record), every query with good parameters is answered with the
    InvalidParameters error: [idxmin] of the empty column raises a
    [ValueError], which the handler of line 588 takes for a bad parameter. *)
Theorem empty_frame_is_invalid_parameters args lat lon maxd p :
  parsed args lat lon maxd →
  point_to_crs_3857 (lon, lat) = Ok p →
  check_proximity (Some []) args = INVALID_PARAMETERS.
Proof.
  intros Hargs Hp. rewrite (check_proximity_not_excluded _ _ _ _ _ Hargs).
  - unfold proximity. by rewrite Hp.
  - unfold get_state_from_coords, state_lookup. by rewrite Hp.
Qed.

(** X6.  An exception of the geometry engine ends the query with an error
    response: when the projection of the point raises, or when a distance
    does on a query that is not excluded, the response is the
    InvalidParameters error for a [ValueError] and otherwise status 500
    with the text of the exception. *)
Theorem engine_exception_becomes_error frame args lat lon maxd e :
  parsed args lat lon maxd →
  point_to_crs_3857 (lon, lat) = Raise e
  ∨ (∃ p, point_to_crs_3857 (lon, lat) = Ok p ∧
          is_excluded_state (get_state_from_coords (Some frame) lat lon) = false ∧
          mapM (fun r => geom_distance (geom r) p) frame = Raise e) →
  check_proximity (Some frame) args
  = match e with
    | ValueError _ => INVALID_PARAMETERS
    | _ => Response (error_body (exn_str e)) 500
    end.
Proof.
  intros Hargs [Hp|(p & Hp & Hex & Hd)].
  - rewrite (check_proximity_not_excluded _ _ _ _ _ Hargs).
    + unfold proximity. by rewrite Hp.
    + unfold get_state_from_coords, state_lookup. by rewrite Hp.
  - rewrite (check_proximity_not_excluded _ _ _ _ _ Hargs Hex).
    unfold proximity. by rewrite Hp, bind_Ok, Hd.
Qed.

(** X7.  Every response of [check_proximity] is of one of two kinds: status
    200 with a [within_range] field and no [error] field, or status 400 or
    500 with an [error] field and no [within_range] field. *)
Theorem response_is_result_or_error md args :
  let resp := check_proximity md args in
  (status resp = 200 ∧ is_Some (jget "within_range" (body resp))
   ∧ jget "error" (body resp) = None)
  ∨ ((status resp = 400 ∨ status resp = 500)
     ∧ is_Some (jget "error" (body resp))
     ∧ jget "within_range" (body resp) = None).
Proof.
  intros resp. unfold resp, check_proximity, check_proximity_try.
  assert (∀ e, let r := handle (Raise e) in
               (status r = 400 ∨ status r = 500)
               ∧ is_Some (jget "error" (body r))
               ∧ jget "within_range" (body r) = None) as Herr.
  { intros [msg|msg|msg]; simpl; split_and!; auto; by eexists. }
  destruct (float_of_arg (args !! "lat")) as [lat|e];
    [rewrite bind_Ok | right; apply Herr].
  destruct (float_of_arg (args !! "lon")) as [lon|e];
    [rewrite bind_Ok | right; apply Herr].
  destruct (max_distance_arg (args !! "max_distance")) as [maxd|e];
    [rewrite bind_Ok | right; apply Herr].
  destruct md as [frame|].
  2: { right. simpl. split_and!; [by right | by eexists | done]. }
  cbv zeta.
  assert (let r := handle (proximity frame lat lon maxd) in
          (status r = 200 ∧ is_Some (jget "within_range" (body r))
           ∧ jget "error" (body r) = None)
          ∨ ((status r = 400 ∨ status r = 500)
             ∧ is_Some (jget "error" (body r))
             ∧ jget "within_range" (body r) = None)) as Hprox.
  { destruct (proximity frame lat lon maxd) as [r|e] eqn:Hp; [|right; apply Herr].
    left. destruct (proximity_bodies _ _ _ _ _ Hp) as [Hst Hbody]. simpl.
    split; [done|].
    destruct Hbody as [(m & edge & ->)|(m & inside & edge & nearby & ->)];
      split; by eexists || done. }
  destruct (get_state_from_coords (Some frame) lat lon) as [s|]; [|exact Hprox].
  destruct (negb (String.eqb s EmptyString) && is_excluded_state (Some s));
    [|exact Hprox].
  left. simpl. split_and!; [done| by eexists | done].
Qed.

(** X8.  For a query that is not excluded, on which the engine raises
    nothing and some region has a distance: [within_range] tells exactly
    whether some region is within the radius; if so [all_nearby_metros]
    lists the regions within the radius, all of them and in load order; if
    not, the field is absent and [is_inside_metro] is false. *)
Theorem within_range_iff_some_region_nearby frame args lat lon maxd p ds :
  parsed args lat lon maxd →
  engine_answers frame lat lon p ds →
  NoDup (label <$> frame) →
  is_excluded_state (get_state_from_coords (Some frame) lat lon) = false →
  (∃ d, d ∈ ds ∧ PyFloat.is_nan d = false) →
  let resp := check_proximity (Some frame) args in
  let nearby := nearby_metros frame ds maxd in
  status resp = 200 ∧
  jget "within_range" (body resp) = Some (JBool (bool_decide (nearby ≠ []))) ∧
  (nearby ≠ [] →
   jget "all_nearby_metros" (body resp) = Some (JList (metro_info <$> nearby))) ∧
  (nearby = [] →
   jget "all_nearby_metros" (body resp) = None ∧
   jget "is_inside_metro" (body resp) = Some (JBool false)).
Proof.
  intros Hargs (Hp & Hd & Hc & Hw) Hnd Hex (d & Hd_in & Hd_nn) resp nearby.
  pose proof (mapM_Ok_length _ _ _ Hd) as Hlen.
  assert (∃ m0, m0 ∈ zip frame ds ∧ not_nan m0) as (m0 & Hm0 & Hnn0).
  { apply list_elem_of_lookup in Hd_in as [i Hi].
    destruct (lookup_lt_is_Some_2 frame i) as [r Hr].
    { rewrite <- Hlen. by eapply lookup_lt_Some. }
    exists (r, d). split; [|done]. apply list_elem_of_lookup. exists i.
    apply lookup_zip_with_Some. by exists r, d. }
  destruct (argmin_is_Some _ _ Hm0 Hnn0) as [m Hm].
  destruct (argmin_Some _ _ Hm) as (Hin & _ & _).
  pose proof (zip_elem _ _ _ Hin) as Hrow.
  destruct (proj1 (Forall_forall _ _) Hc _ Hrow) as [inside Hinside].
  destruct (proj1 (Forall_forall _ _) Hw _ Hrow) as (gw & edge & Hgw & Hedge).
  assert (Forall (fun r => ∃ g, geom_to_crs_4326 (geom r) = Ok g) frame) as Hall.
  { eapply Forall_impl; [exact Hw|]. intros ? (g & ? & ? & _). by eexists. }
  unfold resp. rewrite (check_proximity_not_excluded _ _ _ _ _ Hargs Hex).
  rewrite (proximity_Ok _ _ _ maxd _ _ _ _ _ _ Hp Hd Hnd Hm Hinside Hall Hgw Hedge).
  fold nearby. destruct nearby as [|n ns]; simpl.
  - split_and!; [done|done|done|]. by intros _.
  - split_and!; [done|done| |done]. by intros _.
Qed.

End MoreQueries.

Lemma filter_none {A} (P : A → Prop) `{!∀ x, Decision (P x)} (l : list A) :
  Forall (fun x => ¬ P x) l → filter P l = [].
Proof.
  induction 1 as [|x l Hx _ IH]; [done|]. by rewrite filter_cons_False.
Qed.

Lemma filter_all {A} (P : A → Prop) `{!∀ x, Decision (P x)} (l : list A) :
  Forall P l → filter P l = l.
Proof.
  induction 1 as [|x l Hx _ IH]; [done|]. rewrite filter_cons_True by done.
  by rewrite IH.
Qed.

Lemma lower_upper_char c :
  PyStr.lower_char (PyStr.upper_char c) = PyStr.lower_char c.
Proof. destruct c as [[] [] [] [] [] [] [] []]; reflexivity. Qed.

Lemma lower_upper s : PyStr.lower (PyStr.upper s) = PyStr.lower s.
Proof.
  unfold PyStr.lower, PyStr.upper. induction s as [|c s IH]; [done|].
  simpl. by rewrite lower_upper_char, IH.
Qed.

Lemma lower_lower_char c :
  PyStr.lower_char (PyStr.lower_char c) = PyStr.lower_char c.
Proof. destruct c as [[] [] [] [] [] [] [] []]; reflexivity. Qed.

Lemma lower_lower s : PyStr.lower (PyStr.lower s) = PyStr.lower s.
Proof.
  unfold PyStr.lower. induction s as [|c s IH]; [done|].
  simpl. by rewrite lower_lower_char, IH.
Qed.

Lemma upper_char_comma c :
  Ascii.eqb (PyStr.upper_char c) "," = Ascii.eqb c ",".
Proof. destruct c as [[] [] [] [] [] [] [] []]; reflexivity. Qed.

Lemma split_smap (f : ascii → ascii) s :
  (∀ c, Ascii.eqb (f c) "," = Ascii.eqb c ",") →
  PyStr.split "," (PyStr.smap f s) = PyStr.smap f <$> PyStr.split "," s.
Proof.
  intros Hf. induction s as [|c s IH]; [done|]. simpl. rewrite Hf.
  destruct (Ascii.eqb c ","); [by rewrite IH|].
  rewrite IH. by destruct (PyStr.split "," s).
Qed.

Lemma target_main_upper target :
  target_main (PyStr.upper target) = target_main target.
Proof.
  unfold target_main, PyStr.upper.
  rewrite (split_smap _ _ upper_char_comma).
  destruct (PyStr.split "," target) as [|main rest]; [done|]. simpl.
  change (PyStr.smap PyStr.upper_char main) with (PyStr.upper main).
  by rewrite (lower_upper main).
Qed.

Section MoreLoading.

Context `{!PyRuntime} {E : GeoEngine}.

Implicit Types (frame : list (row geometry)).
Implicit Types (args : gmap string string) (fs : files).

(** *** The allow-list *)

(** X9.  A target list that holds only blank lines and the lines [Other]
    and [Rural] is no filter at all: every record is kept. *)
Theorem sentinel_lines_keep_all_records (lines : list string) frame :
  Forall (fun line => PyStr.strip line ∈ [EmptyString; "Other"; "Rural"]) lines →
  read_targets lines = ∅ ∧ filter_targets (read_targets lines) frame = frame.
Proof.
  intros Hlines.
  assert (read_targets lines = ∅) as Hempty.
  { unfold read_targets. rewrite filter_none; [done|].
    apply Forall_fmap. eapply Forall_impl; [exact Hlines|].
    intros line Hline [Hne Hnot]. simpl in *.
    apply elem_of_cons in Hline as [Heq|Hline]; [done|]. by apply Hnot. }
  split; [done|]. unfold filter_targets. rewrite Hempty.
  by rewrite bool_decide_eq_false_2 by (by intros Hne).
Qed.

(** X10.  A target whose main part is empty (a line that starts with a
    comma, say) matches every name, so with it in the list every record is
    kept. *)
Theorem empty_main_part_keeps_all_records (target_names : gset string) target frame :
  target ∈ target_names → target_main target = EmptyString →
  (∀ census_name, matches_target target_names census_name = true) ∧
  filter_targets target_names frame = frame.
Proof.
  intros Hin Hmain.
  assert (∀ census_name, matches_target target_names census_name = true) as Hall.
  { intros census_name. apply matches_target_iff. exists target. split; [done|].
    rewrite Hmain. by destruct (PyStr.lower census_name). }
  split; [done|]. unfold filter_targets.
  rewrite bool_decide_eq_true_2 by (by eapply non_empty_inhabited_L).
  apply filter_all, Forall_forall. intros r _. apply Hall.
Qed.

(** X11.  Matching ignores letter case: a record's name in upper or in
    lower case is matched like the name itself, and a target in upper case
    has the main part of the target itself. *)
Theorem matches_target_ignores_case (target_names : gset string) census_name :
  matches_target target_names (PyStr.upper census_name)
  = matches_target target_names census_name ∧
  matches_target target_names (PyStr.lower census_name)
  = matches_target target_names census_name ∧
  ∀ target, target_main (PyStr.upper target) = target_main target.
Proof.
  unfold matches_target. rewrite lower_upper, lower_lower.
  split_and!; [done..|]. apply target_main_upper.
Qed.

(** X12.  Once the allow-list has an entry, adding entries never drops a
    record: what a list keeps, every larger list keeps. *)
Theorem larger_allow_list_keeps_more (targets targets' : gset string) frame r :
  targets ≠ ∅ → targets ⊆ targets' →
  r ∈ filter_targets targets frame → r ∈ filter_targets targets' frame.
Proof.
  intros Hne Hsub.
  assert (targets' ≠ ∅) as Hne'.
  { intros Heq. apply Hne. rewrite Heq in Hsub. set_solver. }
  unfold filter_targets. rewrite !bool_decide_eq_true_2 by done.
  rewrite !list_elem_of_filter, !matches_target_iff.
  intros [(t & Ht & Hc) Hr]. split; [|done]. exists t. split; [|done].
  by apply Hsub.
Qed.

End MoreLoading.

Section MoreLifecycle.

Context `{!PyRuntime} {E : GeoEngine} {C : CentroidEngine E}.

Implicit Types (frame : list (row geometry)).
Implicit Types (args : gmap string string) (fs : files).

(** *** [load_metro_data] *)

Lemma load_metro_data_Some fs p records :
  shapefile fs = Some records →
  load_metro_data fs p
  = let kept := filter_targets (targets_of fs) (read_file records) in
    let p1 := print LoadingCensus p in
    let p2 := match target_metros fs with
              | Some _ => print (LoadedTargets (size (targets_of fs))) p1
              | None => p1
              end in
    let p3 := set_metro_data kept p2 in
    let p4 := if bool_decide (targets_of fs ≠ ∅)
              then print (FilteredTo (length kept)) p3
              else print (NoFilterApplied (length kept)) p3 in
    match frame_to_crs geom_to_crs_3857 kept with
    | Ok projected => (Ok (), set_metro_data projected p4)
    | Raise e => (Raise e, p4)
    end.
Proof. intros Hfs. unfold load_metro_data, targets_of. by rewrite Hfs. Qed.

Lemma frame_to_crs_fields (f : geometry → result geometry) frame fw :
  frame_to_crs f frame = Ok fw → name_and_code <$> fw = name_and_code <$> frame.
Proof.
  unfold frame_to_crs. intros Hm. apply mapM_Ok in Hm.
  induction Hm as [|r r' frame fw Hr _ IH]; [done|].
  destruct (f (geom r)) as [g|]; [|done]. simpl in Hr. injection Hr as <-.
  rewrite !fmap_cons. by rewrite IH.
Qed.

Lemma read_file_fields (records : list (string * string * geometry)) :
  name_and_code <$> read_file records = fst <$> records.
Proof.
  unfold read_file. rewrite fmap_imap.
  rewrite (imap_ext _ (const fst)); [by rewrite imap_const|].
  by intros i [[name code] g] _.
Qed.

Lemma load_metro_data_rows fs p records :
  shapefile fs = Some records →
  (load_metro_data fs p).1 = Ok () →
  ∃ frame,
    metro_data (load_metro_data fs p).2 = Some frame ∧
    name_and_code <$> frame
    = name_and_code <$> filter_targets (targets_of fs) (read_file records).
Proof.
  intros Hfs. rewrite (load_metro_data_Some _ _ _ Hfs). cbv zeta.
  destruct (frame_to_crs _ _) as [projected|e] eqn:Hproj; [|done].
  intros _. exists projected. split; [done|].
  by apply frame_to_crs_fields in Hproj.
Qed.

Lemma filter_targets_no_file fs frame :
  target_metros fs = None → filter_targets (targets_of fs) frame = frame.
Proof.
  intros Hnone. unfold filter_targets, targets_of. rewrite Hnone.
  by rewrite bool_decide_eq_false_2 by (by intros Hne).
Qed.

Lemma filter_targets_sublist (targets : gset string) frame :
  filter_targets targets frame `sublist_of` frame.
Proof.
  unfold filter_targets. destruct (bool_decide _); [apply sublist_filter | done].
Qed.

(** X13.  After a load that completes, the frame holds a subsequence of the
    records of the shapefile, in file order, with names and codes as in the
    file; its index labels are pairwise distinct; and without a target
    file it holds every record. *)
Theorem loaded_frame_is_from_the_shapefile fs p records :
  shapefile fs = Some records →
  (load_metro_data fs p).1 = Ok () →
  ∃ frame,
    metro_data (load_metro_data fs p).2 = Some frame ∧
    name_and_code <$> frame `sublist_of` fst <$> records ∧
    NoDup (label <$> frame) ∧
    (target_metros fs = None → name_and_code <$> frame = fst <$> records).
Proof.
  intros Hfs Hok.
  destruct (load_metro_data_rows fs p records Hfs Hok) as (frame & Hframe & Hrows).
  destruct (load_metro_data_labels fs p) as (frame' & Hframe' & Hnd);
    [by rewrite Hfs | done |].
  rewrite Hframe in Hframe'. injection Hframe' as <-.
  exists frame. split_and!; [done| |done|]; rewrite Hrows, <- read_file_fields.
  - apply fmap_sublist, filter_targets_sublist.
  - intros Hnone. by rewrite filter_targets_no_file.
Qed.

(** X14.  Loading again from the same files leaves the same frame: the
    frame after a load depends on the files only, or, when the shapefile
    is missing, is the one from before. *)
Theorem reload_gives_the_same_frame fs p :
  metro_data (load_metro_data fs (load_metro_data fs p).2).2
  = metro_data (load_metro_data fs p).2.
Proof.
  destruct (shapefile fs) as [records|] eqn:Hfs.
  - rewrite !(load_metro_data_Some _ _ _ Hfs). cbv zeta.
    destruct (frame_to_crs _ _) as [projected|e]; simpl; [done|].
    by destruct (bool_decide (targets_of fs ≠ ∅)).
  - unfold load_metro_data. by rewrite Hfs.
Qed.

(** X15.  When the reprojection of line 108 raises, the exception leaves
    [load_metro_data] with the global already set to the frame in its
    original coordinates; [ensure_metro_data_loaded] then takes the data
    for loaded and does nothing. *)
Theorem failed_reprojection_leaves_unprojected_frame fs fs' p records e :
  shapefile fs = Some records →
  frame_to_crs geom_to_crs_3857 (filter_targets (targets_of fs) (read_file records))
  = Raise e →
  let after := (load_metro_data fs p).2 in
  (load_metro_data fs p).1 = Raise e ∧
  metro_data after = Some (filter_targets (targets_of fs) (read_file records)) ∧
  ensure_metro_data_loaded fs' after = (Ok (), after).
Proof.
  intros Hfs Hraise after. unfold after.
  rewrite (load_metro_data_Some _ _ _ Hfs). cbv zeta. rewrite Hraise.
  assert (∀ q : process, metro_data (if bool_decide (targets_of fs ≠ ∅)
            then print (FilteredTo (length (filter_targets (targets_of fs) (read_file records))))
                   (set_metro_data (filter_targets (targets_of fs) (read_file records)) q)
            else print (NoFilterApplied (length (filter_targets (targets_of fs) (read_file records))))
                   (set_metro_data (filter_targets (targets_of fs) (read_file records)) q))
          = Some (filter_targets (targets_of fs) (read_file records))) as Hmd
    by (intros q; by destruct (bool_decide _)).
  split_and!; [done|apply Hmd|].
  unfold ensure_metro_data_loaded. simpl. by rewrite Hmd.
Qed.

Lemma after_geojson_requests_unloaded (fss : list files) (q : process) :
  metro_data q = None → Forall (fun fs => shapefile fs = None) fss →
  metro_data (after_geojson_requests fss q) = None.
Proof.
  intros Hq Hall. revert q Hq. unfold after_geojson_requests.
  induction Hall as [|fs fss Hfs _ IH]; intros q Hq; [done|]. simpl.
  apply IH. unfold metros_geojson, ensure_metro_data_loaded, load_metro_data.
  rewrite Hq, Hfs. simpl. by rewrite Hq.
Qed.

(** X16.  When the shapefile is missing at import and at every later
    [/metros.geojson] request (the one route that attempts a load), every
    query with good parameters, before, between or after those requests,
    is answered with status 500 and "Metro data not loaded". *)
Theorem queries_without_shapefile_report_not_loaded fs (fss : list files)
    args lat lon maxd :
  shapefile fs = None →
  Forall (fun fs' => shapefile fs' = None) fss →
  parsed args lat lon maxd →
  check_proximity
    (metro_data (after_geojson_requests fss (import_module fs).2)) args
  = Response (error_body "Metro data not loaded") 500.
Proof.
  intros Hfs Hfss Hargs.
  rewrite after_geojson_requests_unloaded; [|
    unfold import_module, load_metro_data; by rewrite Hfs | done].
  by rewrite (check_proximity_parsed _ _ _ _ _ Hargs).
Qed.

(** *** [home] and [metros_geojson] *)

(** X17.  The count on the home page after a load that completes is at
    most the number of records in the shapefile, and equal to it when
    there is no target file; after a load that found no shapefile in a
    fresh process it is 0. *)
Theorem home_counts_loaded_records fs p :
  (∀ records,
     shapefile fs = Some records → (load_metro_data fs p).1 = Ok () →
     (home_metros_loaded (metro_data (load_metro_data fs p).2) ≤ length records)%nat ∧
     (target_metros fs = None →
      home_metros_loaded (metro_data (load_metro_data fs p).2) = length records)) ∧
  (shapefile fs = None → home_metros_loaded (metro_data (import_module fs).2) = 0).
Proof.
  split.
  - intros records Hfs Hok.
    destruct (load_metro_data_rows fs p records Hfs Hok) as (frame & -> & Hrows).
    apply (f_equal length) in Hrows. rewrite !length_fmap in Hrows.
    simpl. rewrite Hrows. split.
    + rewrite <- (length_fmap fst records), <- read_file_fields, length_fmap.
      apply sublist_length, filter_targets_sublist.
    + intros Hnone. rewrite filter_targets_no_file by done.
      by rewrite <- (length_fmap fst records), <- read_file_fields, length_fmap.
  - intros Hfs. unfold import_module, load_metro_data. by rewrite Hfs.
Qed.

Lemma features_of_names (metro_display : list (row geometry)) features :
  features_of metro_display = Ok features →
  (fun f => jget "properties" f ≫= jget "name") <$> features
  = (fun r => Some (JStr (NAME r))) <$> metro_display.
Proof.
  unfold features_of. intros Hm. apply mapM_Ok in Hm.
  induction Hm as [|r f rows features Hr _ IH]; [done|].
  destruct (geom_centroid (geom r)) as [c|]; [|done]. simpl in Hr.
  injection Hr as <-. rewrite !fmap_cons. by rewrite IH.
Qed.

(** X18.  [metros_geojson] changes the process state only through
    [ensure_metro_data_loaded].  Without data and without a shapefile it
    attempts the load and answers status 500, "Metro data not loaded".  On
    a loaded frame it leaves the process state as it is, and a response it
    returns has status 200 and one feature for each row of the frame, in
    load order, under the row's name. *)
Theorem metros_geojson_lists_loaded_rows fs p :
  (metros_geojson fs p).2 = (ensure_metro_data_loaded fs p).2 ∧
  (metro_data p = None → shapefile fs = None →
   metros_geojson fs p
   = (Ok (Response (error_body "Metro data not loaded") 500),
      print ShapefileNotFound p)) ∧
  (∀ frame, metro_data p = Some frame →
     (metros_geojson fs p).2 = p ∧
     ∀ resp, (metros_geojson fs p).1 = Ok resp →
       status resp = 200 ∧
       ∃ features,
         jget "features" (body resp) = Some (JList features) ∧
         (fun f => jget "properties" f ≫= jget "name") <$> features
         = (fun r => Some (JStr (NAME r))) <$> frame).
Proof.
  split_and!.
  - unfold metros_geojson.
    destruct (ensure_metro_data_loaded fs p) as [[[]|e] q]; [|done].
    by destruct (metro_data q).
  - intros Hmd Hfs. unfold metros_geojson, ensure_metro_data_loaded, load_metro_data.
    rewrite Hmd, Hfs. simpl. by rewrite Hmd.
  - intros frame Hmd. unfold metros_geojson, ensure_metro_data_loaded.
    rewrite Hmd. simpl. rewrite Hmd. split; [done|]. simpl.
    destruct (frame_to_crs geom_to_crs_4326 frame) as [display|] eqn:Hd; [|done].
    rewrite bind_Ok.
    destruct (features_of display) as [features|] eqn:Hf; [|done].
    rewrite bind_Ok. intros resp [= <-]. split; [done|].
    exists features. split; [done|].
    rewrite (features_of_names _ _ Hf).
    pose proof (frame_to_crs_fields _ _ _ Hd) as Hfields.
    apply (f_equal (fmap (fun nc : string * string => Some (JStr nc.1)))) in Hfields.
    by rewrite <- !list_fmap_compose in Hfields.
Qed.

End MoreLifecycle.

(** *** Names without an uppercase letter *)

Lemma has_upper_lstrip s : has_upper (PyStr.lstrip s) = true → has_upper s = true.
Proof.
  unfold has_upper. induction s as [|c s IH]; [done|]. simpl.
  destruct (PyStr.is_space c); [|done]. intros Hs. rewrite (IH Hs).
  apply orb_true_r.
Qed.

Lemma has_upper_rstrip s : has_upper (PyStr.rstrip s) = true → has_upper s = true.
Proof.
  unfold has_upper. induction s as [|c s IH]; [done|]. simpl.
  destruct (PyStr.rstrip s) as [|c' r].
  - destruct (PyStr.is_space c); [done|]. simpl. rewrite orb_false_r.
    by intros ->.
  - simpl in *. intros [->|Hr]%orb_true_iff; [done|].
    rewrite (IH Hr). apply orb_true_r.
Qed.

Lemma has_upper_strip s : has_upper (PyStr.strip s) = true → has_upper s = true.
Proof. intros Hs. by apply has_upper_lstrip, has_upper_rstrip. Qed.

Lemma has_upper_split sep s part :
  part ∈ PyStr.split sep s → has_upper part = true → has_upper s = true.
Proof.
  unfold has_upper. revert part. induction s as [|c s IH]; intros part; simpl.
  { by intros ->%list_elem_of_singleton. }
  destruct (Ascii.eqb c sep).
  - intros [->|Hin]%elem_of_cons; [done|]. intros Hp.
    rewrite (IH _ Hin Hp). apply orb_true_r.
  - destruct (PyStr.split sep s) as [|f fs].
    + intros ->%list_elem_of_singleton. simpl. rewrite orb_false_r. by intros ->.
    + intros [->|Hin]%elem_of_cons.
      * simpl. intros [->|Hf]%orb_true_iff; [done|].
        rewrite (IH f); [apply orb_true_r | apply elem_of_cons; by left | done].
      * intros Hp. rewrite (IH part); [apply orb_true_r | | done].
        apply elem_of_cons; by right.
Qed.

Lemma has_upper_replace_char s :
  has_upper (PyStr.replace_char "-" "," s) = has_upper s.
Proof.
  unfold has_upper, PyStr.replace_char. induction s as [|c s IH]; [done|].
  simpl. rewrite IH. f_equal.
  destruct (Ascii.eqb_spec c "-") as [->|]; done.
Qed.

Lemma has_upper_prefix sub s :
  String.prefix sub s = true → has_upper sub = true → has_upper s = true.
Proof.
  unfold has_upper. revert s. induction sub as [|a sub IH]; intros s; [done|].
  destruct s as [|b s]; [done|]. simpl.
  destruct (ascii_dec a b) as [->|]; [|done].
  intros Hp [->|Hs]%orb_true_iff; [done|]. rewrite (IH _ Hp Hs). apply orb_true_r.
Qed.

Lemma has_upper_contains sub s :
  PyStr.contains sub s = true → has_upper sub = true → has_upper s = true.
Proof.
  induction s as [|c s IH].
  - change (PyStr.contains sub EmptyString)
      with (String.prefix sub EmptyString || false).
    rewrite orb_false_r. apply has_upper_prefix.
  - change (PyStr.contains sub (String c s))
      with (String.prefix sub (String c s) || PyStr.contains sub s).
    intros [Hp|Hc]%orb_true_iff Hsub; [by eapply has_upper_prefix|].
    unfold has_upper in *. simpl. rewrite (IH Hc Hsub). apply orb_true_r.
Qed.

Section MoreNames.

Context `{!PyRuntime}.

Lemma scan_parts_has_upper parts code :
  scan_parts parts = Some code → ∃ part, part ∈ parts ∧ has_upper part = true.
Proof.
  induction parts as [|part parts IH]; [done|]. simpl.
  destruct (Nat.eqb (String.length (PyStr.strip part)) 2
            && PyStr.isupper (PyStr.strip part)) eqn:Hab.
  - intros _. exists part. split; [apply elem_of_cons; by left|].
    apply has_upper_strip. apply andb_true_iff in Hab as [_ Hup].
    unfold PyStr.isupper in Hup. by apply andb_true_iff in Hup as [? _].
  - destruct (find _ set_iter_order) as [state|] eqn:Hfind.
    + intros _. exists part. split; [apply elem_of_cons; by left|].
      apply find_some in Hfind as [Hin Hc].
      apply has_upper_strip. apply (has_upper_contains _ _ Hc).
      apply list_elem_of_In in Hin. rewrite set_iter_order_perm in Hin.
      clear Hc. revert state Hin. apply Forall_forall.
      unfold EXCLUDED_STATES. repeat constructor.
    + intros Hrest. destruct (IH Hrest) as (part' & Hin & Hup).
      exists part'. split; [apply elem_of_cons; by right | done].
Qed.

(** X19.  The extraction is case-sensitive: an ASCII name without an
    uppercase letter yields no code, so a region named in lower-case ASCII
    is never excluded. *)
Theorem lowercase_name_has_no_code name :
  PyStr.is_ascii name = true →
  has_upper name = false →
  state_of_name name = None ∧ is_excluded_state (state_of_name name) = false.
Proof.
  intros _ Hlow.
  assert (state_of_name name = None) as ->; [|done].
  destruct (state_of_name name) as [code|] eqn:Hcode; [|done]. exfalso.
  apply scan_parts_has_upper in Hcode as (part & Hin & Hup).
  apply (has_upper_split _ _ _ Hin) in Hup.
  rewrite has_upper_replace_char in Hup. by rewrite Hup in Hlow.
Qed.

End MoreNames.

(** * More worked examples on the planar engine *)

Module MoreExamples.

Import Toy ToyMore.

#[local] Existing Instances runtime engine centroids.

(** X1 on the New York region, whose first part holds a full name. *)
Lemma state_of_name_code_shape_witness :
  (String.length "New York" = 2 ∧ PyStr.isupper "New York" = true) ∨
  ("New York" ∈ EXCLUDED_STATES ∧ is_excluded_state (Some "New York") = true).
Proof.
  apply (@state_of_name_code_shape runtime "New York-Newark-Jersey City, NY-NJ-PA").
  reflexivity.
Defined.

(** X2 at a point inside both regions of [phoenix_first]. *)
Lemma first_containing_is_first_hit_witness :
  ∃ before after,
    phoenix_first = (before ++ phoenix :: after)%list ∧
    Forall (fun r' => geom_contains (geom r')
                        (PyFloat.Fin 550000, PyFloat.Fin 50000) = Ok false) before ∧
    geom_contains (geom phoenix) (PyFloat.Fin 550000, PyFloat.Fin 50000) = Ok true.
Proof.
  apply (proj1 (@first_containing_is_first_hit engine phoenix_first
                  (PyFloat.Fin 550000, PyFloat.Fin 50000) phoenix)).
  reflexivity.
Defined.

(** X3 at the same point: the Florida region loaded second is not asked. *)
Lemma exclusion_decided_by_first_containing_witness :
  geom_contains (geom key_west) (PyFloat.Fin 550000, PyFloat.Fin 50000) = Ok true ∧
  state_of_name (NAME key_west) = Some "FL" ∧
  check_proximity (Some phoenix_first) (query "0.5" "5.5" None)
  = handle (proximity phoenix_first (PyFloat.Fin (1 # 2)) (PyFloat.Fin (11 # 2))
              (PyFloat.Fin 50)).
Proof.
  split; [reflexivity|]. split; [reflexivity|].
  apply (@exclusion_decided_by_first_containing runtime engine phoenix_first
           (query "0.5" "5.5" None) (PyFloat.Fin (1 # 2)) (PyFloat.Fin (11 # 2))
           (PyFloat.Fin 50) (PyFloat.Fin 550000, PyFloat.Fin 50000) phoenix).
  - repeat split; reflexivity.
  - reflexivity.
  - reflexivity.
  - reflexivity.
Defined.

(** X4 on the store measured from a point as far from Miami as from
    Phoenix: Miami, loaded first, is picked. *)
Lemma idxmin_picks_first_minimum_witness :
  let working : list (@measured engine) :=
    zip store [PyFloat.Fin 200000; PyFloat.Fin 200000; PyFloat.Fin 600000] in
  let m : @measured engine := (miami, PyFloat.Fin 200000) in
  ∃ before after,
    working = (before ++ m :: after)%list ∧ not_nan m ∧
    (∀ m', m' ∈ before → not_nan m' → PyFloat.lt m.2 m'.2 = true) ∧
    (∀ m', m' ∈ after → not_nan m' → PyFloat.le m.2 m'.2 = true).
Proof.
  apply (@idxmin_picks_first_minimum runtime engine).
  - apply (bool_decide_unpack _). reflexivity.
  - reflexivity.
Defined.

(** X5 on the empty frame. *)
Lemma empty_frame_is_invalid_parameters_witness :
  check_proximity (Some []) (query "0.5" "3" None) = INVALID_PARAMETERS.
Proof.
  apply (@empty_frame_is_invalid_parameters runtime engine (query "0.5" "3" None)
           (PyFloat.Fin (1 # 2)) (PyFloat.Fin 3) (PyFloat.Fin 50)
           (PyFloat.Fin 300000, PyFloat.Fin 50000)).
  - repeat split; reflexivity.
  - reflexivity.
Defined.

(** X6 on the strict engine: the distance to the invalid polygon raises. *)
Lemma engine_exception_becomes_error_witness :
  @check_proximity runtime strict_engine (Some with_invalid) (query "0.5" "5.5" None)
  = Response (error_body "TopologyException") 500.
Proof.
  apply (@engine_exception_becomes_error runtime strict_engine with_invalid
           (query "0.5" "5.5" None) (PyFloat.Fin (1 # 2)) (PyFloat.Fin (11 # 2))
           (PyFloat.Fin 50) (OtherError "TopologyException")).
  - repeat split; reflexivity.
  - right. exists (PyFloat.Fin 550000, PyFloat.Fin 50000).
    repeat split; reflexivity.
Defined.

(** X8 between Miami and Phoenix with a radius of 125 miles: both are
    within range, Portland is not. *)
Lemma within_range_iff_some_region_nearby_witness :
  let resp := check_proximity (Some store) (query "0.5" "3" (Some "125")) in
  let nearby : list (@measured engine) :=
    nearby_metros store
      [PyFloat.Fin 200000; PyFloat.Fin 200000; PyFloat.Fin 600000]
      (PyFloat.Fin 125) in
  status resp = 200 ∧
  jget "within_range" (body resp) = Some (JBool (bool_decide (nearby ≠ []))) ∧
  (nearby ≠ [] →
   jget "all_nearby_metros" (body resp) = Some (JList (metro_info <$> nearby))) ∧
  (nearby = [] →
   jget "all_nearby_metros" (body resp) = None ∧
   jget "is_inside_metro" (body resp) = Some (JBool false)).
Proof.
  apply (@within_range_iff_some_region_nearby runtime engine store
           (query "0.5" "3" (Some "125"))
           (PyFloat.Fin (1 # 2)) (PyFloat.Fin 3) (PyFloat.Fin 125)
           (PyFloat.Fin 300000, PyFloat.Fin 50000)).
  - repeat split; reflexivity.
  - split_and!; [reflexivity..| |];
      repeat constructor; repeat eexists; reflexivity.
  - apply (bool_decide_unpack _). reflexivity.
  - reflexivity.
  - exists (PyFloat.Fin 200000). split; [|reflexivity].
    apply elem_of_cons. by left.
Defined.

(** X9 on a target file with the two sentinel lines and a blank one. *)
Lemma sentinel_lines_keep_all_records_witness :
  read_targets ["Other"; " Rural "; "  "] = ∅ ∧
  filter_targets (read_targets ["Other"; " Rural "; "  "]) store = store.
Proof.
  apply (@sentinel_lines_keep_all_records engine).
  repeat constructor; apply (bool_decide_unpack _); reflexivity.
Defined.

(** X10 on a target line that starts with a comma. *)
Lemma empty_main_part_keeps_all_records_witness :
  (∀ census_name, matches_target {[", AZ"]} census_name = true) ∧
  filter_targets {[", AZ"]} store = store.
Proof.
  apply (@empty_main_part_keeps_all_records engine {[", AZ"]} ", AZ").
  - by apply elem_of_singleton.
  - reflexivity.
Defined.

(** X12: the Portland row stays when a Phoenix entry is added. *)
Lemma larger_allow_list_keeps_more_witness :
  portland ∈ filter_targets ({["Portland, OR"]} ∪ {["Phoenix, AZ"]}) store.
Proof.
  apply (@larger_allow_list_keeps_more engine {["Portland, OR"]}
           ({["Portland, OR"]} ∪ {["Phoenix, AZ"]}) store portland).
  - apply (bool_decide_unpack _). reflexivity.
  - apply union_subseteq_l.
  - assert (filter_targets {["Portland, OR"]} store = [portland]) as ->
      by reflexivity.
    apply elem_of_cons. by left.
Defined.

(** X13 on the two records of [two_records]. *)
Lemma loaded_frame_is_from_the_shapefile_witness :
  let records : list (string * string * shape) :=
    [("Miami-Fort Lauderdale-Pompano Beach, FL", "33100", Rect 0 0 1 1);
     ("Phoenix-Mesa-Chandler, AZ", "38060", Rect 5 0 6 1)] in
  ∃ frame : list (row shape),
    metro_data (load_metro_data two_records fresh).2 = Some frame ∧
    name_and_code <$> frame `sublist_of` fst <$> records ∧
    NoDup (label <$> frame) ∧
    (target_metros two_records = None →
     name_and_code <$> frame = fst <$> records).
Proof.
  intros records.
  apply (@loaded_frame_is_from_the_shapefile engine two_records fresh records);
    reflexivity.
Defined.

(** X15 on a shapefile without coordinate reference system. *)
Lemma failed_reprojection_leaves_unprojected_frame_witness :
  let after := (@load_metro_data naive_engine naive_records fresh).2 in
  (@load_metro_data naive_engine naive_records fresh).1
  = Raise (ValueError "Cannot transform naive geometries") ∧
  metro_data after
  = Some (filter_targets (targets_of naive_records)
            (read_file [("Miami-Fort Lauderdale-Pompano Beach, FL", "33100",
                         Rect 0 0 1 1);
                        ("Phoenix-Mesa-Chandler, AZ", "38060", Rect 5 0 6 1)])) ∧
  ensure_metro_data_loaded naive_records after = (Ok (), after).
Proof.
  apply (@failed_reprojection_leaves_unprojected_frame naive_engine
           naive_records naive_records fresh); reflexivity.
Defined.

(** X16 on a deployment without shapefile, after two requests for
    [/metros.geojson]. *)
Lemma queries_without_shapefile_report_not_loaded_witness :
  check_proximity
    (metro_data (after_geojson_requests [no_shapefile; no_shapefile]
                   (import_module no_shapefile).2))
    (query "0.5" "3" None)
  = Response (error_body "Metro data not loaded") 500.
Proof.
  apply (@queries_without_shapefile_report_not_loaded runtime engine centroids
           no_shapefile [no_shapefile; no_shapefile]
           (query "0.5" "3" None) (PyFloat.Fin (1 # 2)) (PyFloat.Fin 3)
           (PyFloat.Fin 50)).
  - reflexivity.
  - repeat constructor.
  - repeat split; reflexivity.
Defined.

(** X17 on [two_records]: the page shows 2. *)
Lemma home_counts_loaded_records_witness :
  home_metros_loaded (metro_data (load_metro_data two_records fresh).2) = 2.
Proof.
  apply (proj1 (@home_counts_loaded_records engine two_records fresh)
           [("Miami-Fort Lauderdale-Pompano Beach, FL", "33100", Rect 0 0 1 1);
            ("Phoenix-Mesa-Chandler, AZ", "38060", Rect 5 0 6 1)]);
    reflexivity.
Defined.

(** X18 on the frame loaded from [two_records]. *)
Lemma metros_geojson_lists_loaded_rows_witness :
  let p := (import_module two_records).2 in
  let frame : list (row shape) :=
    [Row 0 "Miami-Fort Lauderdale-Pompano Beach, FL" "33100"
       (Rect 0 0 100000 100000);
     Row 1 "Phoenix-Mesa-Chandler, AZ" "38060" (Rect 500000 0 600000 100000)] in
  (metros_geojson no_shapefile p).2 = p ∧
  ∀ resp, (metros_geojson no_shapefile p).1 = Ok resp →
    status resp = 200 ∧
    ∃ features,
      jget "features" (body resp) = Some (JList features) ∧
      (fun f => jget "properties" f ≫= jget "name") <$> features
      = (fun r => Some (JStr (NAME r))) <$> frame.
Proof.
  intros p frame.
  apply (proj2 (proj2 (@metros_geojson_lists_loaded_rows engine centroids
                         no_shapefile p)) frame).
  reflexivity.
Defined.

(** The response of that call. *)
Lemma metros_geojson_on_two_records :
  (metros_geojson no_shapefile (import_module two_records).2).1
  = Ok (Response
          (JDict [("type", JStr "FeatureCollection");
                  ("features",
                   JList [feature (Row 0 "Miami-Fort Lauderdale-Pompano Beach, FL"
                                     "33100" (Rect 0 0 1 1))
                            (PyFloat.Fin (1 # 2), PyFloat.Fin (1 # 2));
                          feature (Row 1 "Phoenix-Mesa-Chandler, AZ" "38060"
                                     (Rect 5 0 6 1))
                            (PyFloat.Fin (11 # 2), PyFloat.Fin (1 # 2))])])
          200).
Proof. reflexivity. Qed.

(** X19 on a name in lower case. *)
Lemma lowercase_name_has_no_code_witness :
  state_of_name "miami-fort lauderdale-pompano beach, fl" = None ∧
  is_excluded_state (state_of_name "miami-fort lauderdale-pompano beach, fl") = false.
Proof.
  apply (@lowercase_name_has_no_code runtime); reflexivity.
Defined.

End MoreExamples.
